(** * taipy core: task aggregation and data-node identity

    A shallow embedding of [taipy/core/task/task.py] and of the data
    manager protocol exercised by [tests/core/data/test_data_manager.py].

    Python dictionaries are finite maps ([gmap]); only lookups, updates
    and the multiset of values are observed by the modelled code, so
    the insertion order of a [dict] is not represented.  Exceptions are
    values of [Exn]; a call that may raise returns a [Result].  The
    [function] property of a task goes through the reload decorators of
    [taipy.core.common._reload], which are not among the sources: the
    task record keeps the [_function] field only. *)

From Stdlib Require Import Ascii String.
From stdpp Require Import gmap strings list fin_maps.

(** ** Exceptions and results *)

Inductive Exn : Type :=
| ValidationFailure (name : string)
| AttributeError (message : string)
| InvalidDataNodeType (storage_type : string)
| ModelNotFound (model_id : string).

Inductive Result (A : Type) : Type :=
| Ok (a : A)
| Raise (e : Exn).

Arguments Ok {A} a.
Arguments Raise {A} e.

Definition bindR {A B : Type} (r : Result A) (k : A → Result B) : Result B :=
  match r with
  | Ok a => k a
  | Raise e => Raise e
  end.

Notation "'try!' x := r 'in' k" := (bindR r (λ x, k))
  (at level 10, x name, r at level 100, k at level 200, only parsing).

(** ** Python built-ins used by the sources *)

(** [a or b] on an optional string: [None] and the empty string are
    falsy. *)
Definition py_or (a : option string) (b : string) : string :=
  match a with
  | Some s => if decide (s = "") then b else s
  | None => b
  end.

(** [xs or []] on an optional iterable. *)
Definition or_empty {A : Type} (xs : option (list A)) : list A :=
  match xs with
  | Some l => l
  | None => []
  end.

(** [sep.join(parts)]. *)
Definition join (sep : string) (parts : list string) : string :=
  String.concat sep parts.

(** [list(d.values())]. *)
Definition values {A : Type} (d : gmap string A) : list A :=
  (map_to_list d).*2.

(** [{**a, **b}]: the entries of [a], then every entry of [b] written
    over them. *)
Definition dict_unpack2 {A : Type} (a b : gmap string A) : gmap string A :=
  map_fold (λ k v acc, <[k := v]> acc) a b.

(** ** Identifier validation *)

Definition is_alpha (c : ascii) : bool :=
  let n := nat_of_ascii c in
  ((65 <=? n) && (n <=? 90)) || ((97 <=? n) && (n <=? 122)).

Definition is_digit (c : ascii) : bool :=
  let n := nat_of_ascii c in
  (48 <=? n) && (n <=? 57).

Definition is_underscore (c : ascii) : bool :=
  nat_of_ascii c =? 95.

Fixpoint all_chars (p : ascii → bool) (s : string) : bool :=
  match s with
  | EmptyString => true
  | String c r => p c && all_chars p r
  end.

Definition is_identifier (s : string) : bool :=
  match s with
  | EmptyString => false
  | String c r =>
      (is_alpha c || is_underscore c)
      && all_chars (λ x, is_alpha x || is_digit x || is_underscore x) r
  end.

(** Modelled from the spec: [taipy.core.common._validate_id] is imported
    by [task.py] and is not among the sources.  Section 6 describes a
    valid identifier as alphanumeric plus underscore with no leading
    digit, and section 7 makes an invalid identifier string a
    validation failure; a valid name is handed back. *)
Definition _validate_id (name : string) : Result string :=
  if is_identifier name then Ok name else Raise (ValidationFailure name).

(** ** Scope *)

Module Scope.

(** Modelled from the spec: [taipy.core.data.scope] is imported by
    [task.py] and is not among the sources.  Section 3 gives four
    levels with the total order GLOBAL < CYCLE < SCENARIO < PIPELINE;
    [value] is the ordinal of a level in that order. *)
Inductive t : Type := GLOBAL | CYCLE | SCENARIO | PIPELINE.

Definition value (s : t) : Z :=
  match s with
  | GLOBAL => 1
  | CYCLE => 2
  | SCENARIO => 3
  | PIPELINE => 4
  end%Z.

Definition ltb (a b : t) : bool := (value a <? value b)%Z.

Definition le (a b : t) : Prop := (value a ≤ value b)%Z.

#[global] Instance eq_dec : EqDecision t.
Proof. solve_decision. Defined.

End Scope.

(** [min(iterable)] over scopes, after its first element has been
    taken: a later element replaces the current one only when it is
    strictly smaller. *)
Fixpoint min_from (current : Scope.t) (rest : list Scope.t) : Scope.t :=
  match rest with
  | [] => current
  | x :: rest' => min_from (if Scope.ltb x current then x else current) rest'
  end.

(** ** Data nodes as the task sees them *)

(** Addresses of Python [dict] objects that are shared by reference. *)
Abbreviation loc := positive.

(** Modelled from the spec: the concrete data node classes are not among
    the sources; sections 4.3 and 6 name the variants csv, in-memory,
    pickle and sql. *)
Inductive StorageType : Type := Csv | InMemory | Pickle | Sql.

#[global] Instance StorageType_eq_dec : EqDecision StorageType.
Proof. solve_decision. Defined.

Module DataNode.

(** Modelled from the spec: [taipy.core.data.data_node] is not among
    the sources.  Section 3 lists the attributes; the record keeps the
    ones that the task and the identity protocol read.  [properties]
    is a reference to the node's own mapping. *)
Record t : Type := mk {
  id : string;
  config_id : string;
  scope : Scope.t;
  parent_id : option string;
  storage_type : StorageType;
  properties : loc
}.

#[global] Instance eq_dec : EqDecision t.
Proof. solve_decision. Defined.

End DataNode.

(** [{dn.config_id: dn for dn in nodes}]: entries are written in
    iteration order, a later one over an earlier one with the same
    key. *)
Definition dict_by_config_id (nodes : list DataNode.t) : gmap string DataNode.t :=
  foldl (λ d dn, <[DataNode.config_id dn := dn]> d) ∅ nodes.

(** ** Task *)

(** The callable a task executes is opaque to this layer: a reference
    by name. *)
Definition Callable : Type := string.

Module Task.

Definition _ID_PREFIX : string := "TASK".
Definition __ID_SEPARATOR : string := "_".
Definition _MANAGER_NAME : string := "task".

Record t : Type := mk {
  config_id : string;
  id : string;
  parent_id : option string;
  _Task__input : gmap string DataNode.t;
  _Task__output : gmap string DataNode.t;
  _function : Callable
}.

(** [Task.__init__]; [uuid4] is the text of the UUID the constructor
    draws when it has to build an id. *)
Definition __init__ (config_id : string) (function : Callable)
    (input output : option (list DataNode.t))
    (id : option string) (parent_id : option string)
    (uuid4 : string) : Result t :=
  try! config_id' := _validate_id config_id in
  Ok {| config_id := config_id';
        id := py_or id (join __ID_SEPARATOR [_ID_PREFIX; config_id'; uuid4]);
        parent_id := parent_id;
        _Task__input := dict_by_config_id (or_empty input);
        _Task__output := dict_by_config_id (or_empty output);
        _function := function |}.

Definition input (self : t) : gmap string DataNode.t := _Task__input self.

Definition output (self : t) : gmap string DataNode.t := _Task__output self.

Definition data_nodes (self : t) : gmap string DataNode.t :=
  dict_unpack2 (input self) (output self).

Definition __getattr__ (self : t) (attribute_name : string) : Result DataNode.t :=
  try! protected_attribute_name := _validate_id attribute_name in
  match input self !! protected_attribute_name with
  | Some dn => Ok dn
  | None =>
      match output self !! protected_attribute_name with
      | Some dn => Ok dn
      | None =>
          Raise (AttributeError
                   (attribute_name +:+ " is not an attribute of task " +:+ id self))
      end
  end.

Definition scope (self : t) : Scope.t :=
  let data_nodes := values (_Task__input self) ++ values (_Task__output self) in
  match DataNode.scope <$> data_nodes with
  | [] => Scope.GLOBAL
  | s :: rest => min_from s rest
  end.

End Task.

(** ** Property mappings, configurations and persisted records *)

(** Values a property mapping holds. *)
Inductive PyVal : Type :=
| PStr (s : string)
| PBool (b : bool)
| PInt (z : Z).

#[global] Instance PyVal_eq_dec : EqDecision PyVal.
Proof. solve_decision. Defined.

Module Config.

(** Modelled from the spec: [DataNodeConfig] is not among the sources.
    Section 6 gives it an id, a storage type tag, a scope and an open
    property mapping; the mapping is a Python [dict], held here by
    reference. *)
Record t : Type := mk {
  id : string;
  storage_type : string;
  scope : Scope.t;
  properties : loc
}.

End Config.

Module Model.

(** Modelled from the spec: the record the repository keeps for one
    data node (section 6: one serialized record per entity id that
    round-trips the entity's state).  The property mapping is stored by
    value. *)
Record t : Type := mk {
  id : string;
  config_id : string;
  scope : Scope.t;
  parent_id : option string;
  storage_type : StorageType;
  properties : gmap string PyVal
}.

#[global] Instance eq_dec : EqDecision t.
Proof. solve_decision. Defined.

End Model.

Module Repository.

(** Modelled from the spec: the entity repository of section 4.2, a
    store keyed by entity id.  [save] overwrites the record of the same
    id, [load] fails with [ModelNotFound] on an absent id. *)
Definition save (m : Model.t) (store : gmap string Model.t) : gmap string Model.t :=
  <[Model.id m := m]> store.

Definition load (model_id : string) (store : gmap string Model.t) : Result Model.t :=
  match store !! model_id with
  | Some m => Ok m
  | None => Raise (ModelNotFound model_id)
  end.

Definition delete (model_id : string) (store : gmap string Model.t) : gmap string Model.t :=
  base.delete model_id store.

Definition delete_all (store : gmap string Model.t) : gmap string Model.t := ∅.

Definition get_all (store : gmap string Model.t) : list Model.t :=
  (map_to_list store).*2.

End Repository.

(** ** The state the manager works on *)

(** [heap] holds the property mappings that live as Python objects,
    [repository] the persisted records. *)
Record State : Type := mkState {
  heap : gmap loc (gmap string PyVal);
  repository : gmap string Model.t
}.

(** A call runs on a state and returns a value or raises; the state it
    leaves is observable in both cases. *)
Definition M (A : Type) : Type := State → Result A * State.

#[global] Instance M_ret : MRet M := λ A a st, (Ok a, st).

#[global] Instance M_bind : MBind M := λ A B k c st,
  match c st with
  | (Ok a, st') => k a st'
  | (Raise e, st') => (Raise e, st')
  end.

Definition raise {A : Type} (e : Exn) : M A := λ st, (Raise e, st).

Definition get_state : M State := λ st, (Ok st, st).

Definition set_heap (h : gmap loc (gmap string PyVal)) : M unit :=
  λ st, (Ok (), mkState h (repository st)).

Definition set_repository (r : gmap string Model.t) : M unit :=
  λ st, (Ok (), mkState (heap st) r).

(** [dict(contents)]: a new mapping object at an unused address. *)
Definition dict_new (contents : gmap string PyVal) : M loc :=
  st ← get_state;
  let l := fresh (dom (heap st)) in
  set_heap (<[l := contents]> (heap st));;
  mret l.

(** The current contents of the mapping at [l]. *)
Definition dict_items (l : loc) : M (gmap string PyVal) :=
  st ← get_state;
  mret (default ∅ (heap st !! l)).

(** [d.copy()]. *)
Definition dict_copy (l : loc) : M loc :=
  contents ← dict_items l;
  dict_new contents.

(** [d[k] = v]. *)
Definition dict_setitem (l : loc) (k : string) (v : PyVal) : M unit :=
  st ← get_state;
  set_heap (alter (λ d, <[k := v]> d) l (heap st)).

(** ** The data manager *)

Module _DataManager.

Definition _ID_PREFIX : string := "DATANODE".

(** Modelled from the spec: the closed tag-to-variant table of sections
    4.3 and 6 (csv, in-memory, pickle, sql). *)
Definition DATA_NODE_CLASS_MAP (tag : string) : option StorageType :=
  if decide (tag = "csv") then Some Csv
  else if decide (tag = "in_memory") then Some InMemory
  else if decide (tag = "pickle") then Some Pickle
  else if decide (tag = "sql") then Some Sql
  else None.

(** Modelled from the spec: the conversion between entities and
    persisted records is not among the sources; section 6 asks that a
    record round-trips the state of its entity.  [to_model] takes the
    fields of an entity and the current contents of its property
    mapping. *)
Definition to_model (dn : DataNode.t) : M Model.t :=
  props ← dict_items (DataNode.properties dn);
  mret (Model.mk (DataNode.id dn) (DataNode.config_id dn) (DataNode.scope dn)
          (DataNode.parent_id dn) (DataNode.storage_type dn) props).

(** Modelled from the spec: as [to_model]; the entity rebuilt from a
    persisted record has a property mapping of its own. *)
Definition from_model (m : Model.t) : M DataNode.t :=
  l ← dict_new (Model.properties m);
  mret (DataNode.mk (Model.id m) (Model.config_id m) (Model.scope m)
          (Model.parent_id m) (Model.storage_type m) l).

(** Modelled from the spec: [_DataManager] is not among the sources;
    section 4.3, [set(entity)]: upsert of the entity's current state,
    keyed by its id. *)
Definition _set (dn : DataNode.t) : M unit :=
  m ← to_model dn;
  st ← get_state;
  set_repository (Repository.save m (repository st)).

(** Modelled from the spec: section 4.3, [get] accepts an id or an
    entity reference, normalised to its id. *)
Definition entity_id (x : string + DataNode.t) : string :=
  match x with
  | inl i => i
  | inr dn => DataNode.id dn
  end.

(** Modelled from the spec: section 4.3, [get(id_or_entity)]: the
    stored entity, or [None] when the repository has no record of the
    id. *)
Definition _get (x : string + DataNode.t) : M (option DataNode.t) :=
  st ← get_state;
  match Repository.load (entity_id x) (repository st) with
  | Ok m => dn ← from_model m; mret (Some dn)
  | Raise _ => mret None
  end.

(** Modelled from the spec: as [from_model], for every record in
    turn. *)
Fixpoint from_models (ms : list Model.t) : M (list DataNode.t) :=
  match ms with
  | [] => mret []
  | m :: ms' =>
      dn ← from_model m;
      dns ← from_models ms';
      mret (dn :: dns)
  end.

(** Modelled from the spec: section 4.3, every entity of this kind. *)
Definition _get_all : M (list DataNode.t) :=
  st ← get_state;
  from_models (Repository.get_all (repository st)).

(** Modelled from the spec: section 4.3, [delete(id)] and
    [delete_all()]. *)
Definition _delete (entity : string) : M unit :=
  st ← get_state;
  set_repository (Repository.delete entity (repository st)).

Definition _delete_all : M unit :=
  st ← get_state;
  set_repository (Repository.delete_all (repository st)).

(** Modelled from the spec: section 4.3, [create_and_set(config,
    parent_id)]: the type tag selects the variant or the call fails with
    [InvalidDataNodeType]; the properties of the configuration are
    copied; the id is [<TYPE>_<config_id>_<uuid>] (section 3) with
    [uuid4] the text of the UUID drawn for it; the entity is persisted
    and returned. *)
Definition _create_and_set (cfg : Config.t) (parent_id : option string)
    (uuid4 : string) : M DataNode.t :=
  match DATA_NODE_CLASS_MAP (Config.storage_type cfg) with
  | None => raise (InvalidDataNodeType (Config.storage_type cfg))
  | Some variant =>
      props ← dict_copy (Config.properties cfg);
      let dn :=
        DataNode.mk (join "_" [_ID_PREFIX; Config.id cfg; uuid4])
          (Config.id cfg) (Config.scope cfg) parent_id variant props in
      _set dn;;
      mret dn
  end.

(** Modelled from the spec: section 4.3, step 2 and the
    [resolved_parent_id] of step 4: the scope-relevant identifier, kept
    in the one [parent_id] an entity has (section 3).  For the PIPELINE
    scope it is the pipeline id: in [test_get_or_create] (lines 311 to
    319) the calls for [("scenario_id", "pipeline_2")] and
    [("other_scenario_id", "pipeline_2")] return the same entity and
    the number of entities stays 5. *)
Definition resolved_parent_id (scope : Scope.t)
    (scenario_id pipeline_id : option string) : option string :=
  match scope with
  | Scope.PIPELINE => pipeline_id
  | Scope.SCENARIO => scenario_id
  | Scope.CYCLE | Scope.GLOBAL => None
  end.

(** Modelled from the spec: section 4.3, step 3: a persisted entity
    matches when its [config_id] and its [parent_id] do. *)
Definition same_key (config_id : string) (parent_id : option string)
    (m : Model.t) : Prop :=
  Model.config_id m = config_id ∧ Model.parent_id m = parent_id.

#[global] Instance same_key_dec config_id parent_id m :
  Decision (same_key config_id parent_id m).
Proof. unfold same_key. apply _. Defined.

(** Modelled from the spec: section 4.3, [get_or_create(config,
    scenario_id, pipeline_id)], steps 1 to 4: the scope of the
    configuration, the resolved parent identifier, the scan of the
    persisted entities of that [config_id] and [parent_id], then reuse
    or [create_and_set(config, resolved_parent_id)]. *)
Definition _get_or_create (cfg : Config.t)
    (scenario_id pipeline_id : option string) (uuid4 : string) : M DataNode.t :=
  let scope := Config.scope cfg in
  let parent_id := resolved_parent_id scope scenario_id pipeline_id in
  st ← get_state;
  match filter (same_key (Config.id cfg) parent_id)
          (Repository.get_all (repository st)) with
  | m :: _ => from_model m
  | [] => _create_and_set cfg parent_id uuid4
  end.

End _DataManager.

(** ** Derived notions used by the statements *)

(** A data node is attached to a task when the input or the output
    mapping holds it. *)
Definition attached (self : Task.t) (dn : DataNode.t) : Prop :=
  ∃ k, Task.input self !! k = Some dn ∨ Task.output self !! k = Some dn.

(** The id the constructor builds for a task. *)
Definition generated_task_id (config_id uuid4 : string) : string :=
  "TASK_" +:+ config_id +:+ "_" +:+ uuid4.

(** The message of the error raised by a failed attribute lookup. *)
Definition unknown_attribute (self : Task.t) (attribute_name : string) : Exn :=
  AttributeError (attribute_name +:+ " is not an attribute of task " +:+ Task.id self).

(** The last node of an iterable that carries a given [config_id]. *)
Definition last_with_config_id (k : string) (nodes : list DataNode.t) : option DataNode.t :=
  last (filter (λ dn, DataNode.config_id dn = k) nodes).

(** ** Sample objects *)

Definition sample_scenario_node : DataNode.t :=
  DataNode.mk "DATANODE_sales_1" "sales" Scope.SCENARIO (Some "scenario_id") InMemory 1%positive.

Definition sample_pipeline_node : DataNode.t :=
  DataNode.mk "DATANODE_report_2" "report" Scope.PIPELINE (Some "pipeline_1") Csv 2%positive.

Definition sample_global_sales_node : DataNode.t :=
  DataNode.mk "DATANODE_sales_3" "sales" Scope.GLOBAL None Pickle 3%positive.

(** [Task("compute", print, [sample_scenario_node],
    [sample_pipeline_node], id="TASK_compute_0")]. *)
Definition sample_task : Task.t :=
  Task.mk "compute" "TASK_compute_0" None
    (dict_by_config_id [sample_scenario_node])
    (dict_by_config_id [sample_pipeline_node]) "print".

(** [Task("bare", print, id="TASK_bare_0")]. *)
Definition bare_task : Task.t :=
  Task.mk "bare" "TASK_bare_0" None ∅ ∅ "print".

(** [TASK_compute_0] with an input and an output that share the
    [config_id] "sales". *)
Definition colliding_task : Task.t :=
  Task.mk "compute" "TASK_compute_0" None
    (dict_by_config_id [sample_global_sales_node])
    (dict_by_config_id [sample_scenario_node]) "print".

(** ** Notions used by the statements about the manager *)

(** A record is persisted when the repository returns it among all its
    records. *)
Definition persisted (st : State) (m : Model.t) : Prop :=
  m ∈ Repository.get_all (repository st).

(** Every record of the store sits under its own id, as [save] files
    it. *)
Definition keyed_by_id (store : gmap string Model.t) : Prop :=
  ∀ k m, store !! k = Some m → Model.id m = k.

(** The id [create_and_set] builds for a data node. *)
Definition generated_data_node_id (config_id uuid4 : string) : string :=
  "DATANODE_" +:+ config_id +:+ "_" +:+ uuid4.

(** The record that describes an entity in a state. *)
Definition model_of (st : State) (dn : DataNode.t) : Model.t :=
  Model.mk (DataNode.id dn) (DataNode.config_id dn) (DataNode.scope dn)
    (DataNode.parent_id dn) (DataNode.storage_type dn)
    (default ∅ (heap st !! DataNode.properties dn)).

(** The state a call leaves and the value it returns. *)
Definition result_of {A : Type} (c : M A) (st : State) : Result A := (c st).1.

Definition state_after {A : Type} (c : M A) (st : State) : State := (c st).2.

(** ** Scenarios of [test_data_manager.py] *)

Definition empty_state : State := mkState ∅ ∅.

(** [len(_DataManager._get_all())]. *)
Definition len_get_all : M nat :=
  all ← _DataManager._get_all;
  mret (length all).

(** The configuration object [Config._add_data_node(id, storage_type,
    scope, **properties)] hands to the manager. *)
Definition add_data_node (id storage_type : string) (scope : Scope.t)
    (properties : gmap string PyVal) : M Config.t :=
  l ← dict_new properties;
  mret (Config.mk id storage_type scope l).

(** [InMemoryDataNode(config_id, scope, id=id)]. *)
Definition in_memory_data_node (config_id : string) (scope : Scope.t)
    (id : string) : M DataNode.t :=
  l ← dict_new ∅;
  mret (DataNode.mk id config_id scope None InMemory l).

(** [test_get_or_create], lines 271 to 327; every call is given the
    text of the UUID it would draw.  The result is the conjunction of
    the assertions. *)
Definition test_get_or_create : M bool :=
  _DataManager._delete_all;;
  global_dn_config ←
    add_data_node "test_data_node" "in_memory" Scope.GLOBAL
      {["data" := PStr "In memory Data Node"]};
  scenario_dn_config ←
    add_data_node "test_data_node2" "in_memory" Scope.SCENARIO
      {["data" := PStr "In memory scenario"]};
  pipeline_dn_config ←
    add_data_node "test_data_node2" "in_memory" Scope.PIPELINE
      {["data" := PStr "In memory pipeline"]};
  n0 ← len_get_all;
  global_dn ← _DataManager._get_or_create global_dn_config None None "uuid-01";
  n1 ← len_get_all;
  global_dn_bis ← _DataManager._get_or_create global_dn_config None None "uuid-02";
  n2 ← len_get_all;
  scenario_dn ←
    _DataManager._get_or_create scenario_dn_config (Some "scenario_id") None "uuid-03";
  n3 ← len_get_all;
  scenario_dn_bis ←
    _DataManager._get_or_create scenario_dn_config (Some "scenario_id") None "uuid-04";
  n4 ← len_get_all;
  scenario_dn_ter ←
    _DataManager._get_or_create scenario_dn_config (Some "scenario_id")
      (Some "whatever_pipeline_id") "uuid-05";
  n5 ← len_get_all;
  scenario_dn_quater ←
    _DataManager._get_or_create scenario_dn_config (Some "scenario_id_2") None "uuid-06";
  n6 ← len_get_all;
  pipeline_dn ←
    _DataManager._get_or_create pipeline_dn_config (Some "scenario_id")
      (Some "pipeline_1") "uuid-07";
  n7 ← len_get_all;
  pipeline_dn_bis ←
    _DataManager._get_or_create pipeline_dn_config (Some "scenario_id")
      (Some "pipeline_1") "uuid-08";
  n8 ← len_get_all;
  pipeline_dn_ter ←
    _DataManager._get_or_create pipeline_dn_config (Some "scenario_id")
      (Some "pipeline_2") "uuid-09";
  n9 ← len_get_all;
  pipeline_dn_quater ←
    _DataManager._get_or_create pipeline_dn_config (Some "other_scenario_id")
      (Some "pipeline_2") "uuid-10";
  n10 ← len_get_all;
  let pipeline_dn_config :=
    Config.mk "test_data_node4" (Config.storage_type pipeline_dn_config)
      (Config.scope pipeline_dn_config) (Config.properties pipeline_dn_config) in
  pipeline_dn_quinquies ←
    _DataManager._get_or_create pipeline_dn_config None None "uuid-11";
  n11 ← len_get_all;
  mret (bool_decide (n0 = 0)
        && bool_decide (n1 = 1)
        && bool_decide (n2 = 1)
        && bool_decide (DataNode.id global_dn = DataNode.id global_dn_bis)
        && bool_decide (n3 = 2)
        && bool_decide (n4 = 2)
        && bool_decide (DataNode.id scenario_dn = DataNode.id scenario_dn_bis)
        && bool_decide (n5 = 2)
        && bool_decide (DataNode.id scenario_dn_bis = DataNode.id scenario_dn_ter)
        && bool_decide (n6 = 3)
        && bool_decide (DataNode.id scenario_dn_ter ≠ DataNode.id scenario_dn_quater)
        && bool_decide (n7 = 4)
        && bool_decide (n8 = 4)
        && bool_decide (DataNode.id pipeline_dn = DataNode.id pipeline_dn_bis)
        && bool_decide (n9 = 5)
        && bool_decide (DataNode.id pipeline_dn ≠ DataNode.id pipeline_dn_ter)
        && bool_decide (n10 = 5)
        && bool_decide (DataNode.id pipeline_dn_bis ≠ DataNode.id pipeline_dn_ter)
        && bool_decide (DataNode.id pipeline_dn_ter = DataNode.id pipeline_dn_quater)
        && bool_decide (n11 = 6)
        && bool_decide (DataNode.id pipeline_dn_bis ≠ DataNode.id pipeline_dn_quinquies)
        && bool_decide (DataNode.id pipeline_dn_ter ≠ DataNode.id pipeline_dn_quinquies)).

(** [with pytest.raises(...)]: the block has to raise an expected
    exception. *)
Definition raises {A : Type} (expected : Exn → bool) (block : M A) : M bool :=
  λ st,
    match block st with
    | (Ok _, st') => (Ok false, st')
    | (Raise e, st') => (Ok (expected e), st')
    end.

Definition is_InvalidDataNodeType (e : Exn) : bool :=
  match e with
  | InvalidDataNodeType _ => true
  | _ => false
  end.

Definition is_ModelNotFound (e : Exn) : bool :=
  match e with
  | ModelNotFound _ => true
  | _ => false
  end.

(** [_DataManager._repository.load(model_id)]. *)
Definition repository_load (model_id : string) : M Model.t :=
  λ st, (Repository.load model_id (repository st), st).

(** [test_create_data_node_and_modify_properties_does_not_modify_config],
    lines 18 to 29; [storage_type] is the tag of a configuration that is
    declared without one. *)
Definition test_create_data_node_and_modify_properties_does_not_modify_config
    (storage_type : string) : M bool :=
  dn_config ←
    add_data_node "name" storage_type Scope.SCENARIO {["foo" := PStr "bar"]};
  dn ← _DataManager._create_and_set dn_config None "uuid-01";
  config_properties ← dict_items (Config.properties dn_config);
  let before :=
    bool_decide (config_properties !! "foo" = Some (PStr "bar"))
    && bool_decide (config_properties !! "baz" = None) in
  dict_setitem (DataNode.properties dn) "baz" (PStr "qux");;
  _DataManager._set dn;;
  config_properties ← dict_items (Config.properties dn_config);
  dn_properties ← dict_items (DataNode.properties dn);
  mret (before
        && bool_decide (config_properties !! "foo" = Some (PStr "bar"))
        && bool_decide (config_properties !! "baz" = None)
        && bool_decide (dn_properties !! "foo" = Some (PStr "bar"))
        && bool_decide (dn_properties !! "baz" = Some (PStr "qux"))).

(** [test_create_raises_exception_with_wrong_type], lines 187 to
    190. *)
Definition test_create_raises_exception_with_wrong_type : M bool :=
  wrong_type_dn_config ← add_data_node "foo" "bar" Scope.SCENARIO ∅;
  raises is_InvalidDataNodeType
    (_DataManager._create_and_set wrong_type_dn_config None "uuid-01").

(** [test_create_from_same_config_generates_new_data_node_and_new_id],
    lines 192 to 196. *)
Definition test_create_from_same_config_generates_new_data_node_and_new_id : M bool :=
  dn_config ← add_data_node "foo" "in_memory" Scope.SCENARIO ∅;
  dn ← _DataManager._create_and_set dn_config None "uuid-01";
  dn_2 ← _DataManager._create_and_set dn_config None "uuid-02";
  mret (bool_decide (DataNode.id dn_2 ≠ DataNode.id dn)).

(** [test_get_if_not_exists], lines 215 to 217. *)
Definition test_get_if_not_exists : M bool :=
  raises is_ModelNotFound (repository_load "test_data_node_2").

(** [test_delete], lines 254 to 269. *)
Definition test_delete : M bool :=
  dn_1 ← in_memory_data_node "config_id" Scope.PIPELINE "id_1";
  dn_2 ← in_memory_data_node "config_id" Scope.PIPELINE "id_2";
  dn_3 ← in_memory_data_node "config_id" Scope.PIPELINE "id_3";
  n0 ← len_get_all;
  _DataManager._set dn_1;;
  _DataManager._set dn_2;;
  _DataManager._set dn_3;;
  n1 ← len_get_all;
  _DataManager._delete (DataNode.id dn_1);;
  n2 ← len_get_all;
  got_2 ← _DataManager._get (inl (DataNode.id dn_2));
  got_3 ← _DataManager._get (inl (DataNode.id dn_3));
  got_1 ← _DataManager._get (inl (DataNode.id dn_1));
  _DataManager._delete_all;;
  n3 ← len_get_all;
  mret (bool_decide (n0 = 0)
        && bool_decide (n1 = 3)
        && bool_decide (n2 = 2)
        && bool_decide (DataNode.id <$> got_2 = Some (DataNode.id dn_2))
        && bool_decide (DataNode.id <$> got_3 = Some (DataNode.id dn_3))
        && bool_decide (got_1 = None)
        && bool_decide (n3 = 0)).

(** The state in which the pipeline-scoped configuration of
    [test_get_or_create] has been resolved once, for
    [("scenario_id", "pipeline_2")]. *)
Definition pipeline_dn_config : Config.t :=
  Config.mk "test_data_node2" "in_memory" Scope.PIPELINE 1%positive.

Definition state_with_config : State :=
  mkState {[1%positive := {["data" := PStr "In memory pipeline"]}]} ∅.

Definition state_after_pipeline_2 : State :=
  state_after
    (_DataManager._get_or_create pipeline_dn_config (Some "scenario_id")
       (Some "pipeline_2") "uuid-09")
    state_with_config.

(** The configurations of [test_create_and_get_csv_data_node] and of
    [test_create_raises_exception_with_wrong_type], in a state that
    holds their property mappings. *)
Definition csv_dn_config : Config.t :=
  Config.mk "foo" "csv" Scope.SCENARIO 1%positive.

Definition wrong_type_dn_config : Config.t :=
  Config.mk "foo" "bar" Scope.SCENARIO 2%positive.

Definition state_with_csv_config : State :=
  mkState {[1%positive := {["path" := PStr "bar"; "has_header" := PBool true;
                            "cacheable" := PBool false]};
            2%positive := ∅]} ∅.

(** ** Further notions used by the statements *)

(** The text has no underscore, as the text of a UUID. *)
Definition no_underscore (s : string) : bool :=
  all_chars (λ c, negb (is_underscore c)) s.

(** The scopes of the data nodes attached to a task. *)
Definition attached_scope (self : Task.t) (s : Scope.t) : Prop :=
  ∃ dn, attached self dn ∧ DataNode.scope dn = s.

(** The task with its input and output mappings exchanged. *)
Definition exchanged (self : Task.t) : Task.t :=
  Task.mk (Task.config_id self) (Task.id self) (Task.parent_id self)
    (Task._Task__output self) (Task._Task__input self) (Task._function self).

(** ** Further scenarios of [test_data_manager.py] *)

(** [len([dn for dn in _DataManager._get_all() if dn.config_id ==
    config_id])]. *)
Definition len_get_all_with_config_id (config_id : string) : M nat :=
  all ← _DataManager._get_all;
  mret (length (filter (λ dn, DataNode.config_id dn = config_id) all)).

(** [InMemoryDataNode(config_id, scope, id=id, parent_id=None, ...,
    properties=properties)]. *)
Definition in_memory_data_node_with_properties (config_id : string)
    (scope : Scope.t) (id : string) (properties : gmap string PyVal) : M DataNode.t :=
  l ← dict_new properties;
  mret (DataNode.mk id config_id scope None InMemory l).

(** [dn.config_id = config_id] on an entity. *)
Definition with_config_id (dn : DataNode.t) (config_id : string) : DataNode.t :=
  DataNode.mk (DataNode.id dn) config_id (DataNode.scope dn)
    (DataNode.parent_id dn) (DataNode.storage_type dn) (DataNode.properties dn).

(** [test_get_all], lines 219 to 229. *)
Definition test_get_all : M bool :=
  n0 ← len_get_all;
  dn_config_1 ← add_data_node "foo" "in_memory" Scope.SCENARIO ∅;
  _DataManager._create_and_set dn_config_1 None "uuid-01";;
  n1 ← len_get_all;
  dn_config_2 ← add_data_node "baz" "in_memory" Scope.SCENARIO ∅;
  _DataManager._create_and_set dn_config_2 None "uuid-02";;
  _DataManager._create_and_set dn_config_2 None "uuid-03";;
  n2 ← len_get_all;
  n_foo ← len_get_all_with_config_id "foo";
  n_baz ← len_get_all_with_config_id "baz";
  mret (bool_decide (n0 = 0)
        && bool_decide (n1 = 1)
        && bool_decide (n2 = 3)
        && bool_decide (n_foo = 1)
        && bool_decide (n_baz = 2)).

(** [test_set], lines 231 to 252. *)
Definition test_set : M bool :=
  dn ← in_memory_data_node_with_properties "config_id" Scope.PIPELINE "id"
         {["foo" := PStr "bar"]};
  n0 ← len_get_all;
  _DataManager._set dn;;
  n1 ← len_get_all;
  let dn := with_config_id dn "foo" in
  let a1 := bool_decide (DataNode.config_id dn = "foo") in
  _DataManager._set dn;;
  n2 ← len_get_all;
  got ← _DataManager._get (inl (DataNode.id dn));
  mret (bool_decide (n0 = 0)
        && bool_decide (n1 = 1)
        && a1
        && bool_decide (n2 = 1)
        && bool_decide (DataNode.config_id dn = "foo")
        && bool_decide (DataNode.config_id <$> got = Some "foo")).

(** * Properties of the task *)

Section python_builtins.

Context {A : Type}.

Lemma elem_of_values (d : gmap string A) (x : A) :
  x ∈ values d ↔ ∃ k, d !! k = Some x.
Proof.
  unfold values. rewrite list_elem_of_fmap. split.
  - intros [[k y] [-> Hin]]. exists k. by apply elem_of_map_to_list.
  - intros [k Hk]. exists (k, x). split; [done|]. by apply elem_of_map_to_list.
Qed.

Lemma values_nil (d : gmap string A) : values d = [] ↔ d = ∅.
Proof.
  unfold values. rewrite <- map_to_list_empty_iff. split.
  - apply fmap_nil_inv.
  - by intros ->.
Qed.

Lemma dict_unpack2_lookup (a b : gmap string A) (k : string) :
  dict_unpack2 a b !! k =
    match b !! k with
    | Some v => Some v
    | None => a !! k
    end.
Proof.
  unfold dict_unpack2. revert k.
  apply (map_fold_weak_ind
           (λ r m, ∀ k, r !! k = match m !! k with Some v => Some v | None => a !! k end)).
  - intros k. by rewrite lookup_empty.
  - intros i x m r _ IH k. rewrite !lookup_insert.
    case_decide; [done|]. apply IH.
Qed.

Lemma dict_unpack2_union (a b : gmap string A) : dict_unpack2 a b = b ∪ a.
Proof.
  apply map_eq. intros k. rewrite dict_unpack2_lookup, lookup_union.
  destruct (b !! k), (a !! k); done.
Qed.

Lemma dict_unpack2_empty (a b : gmap string A) :
  dict_unpack2 a b = ∅ ↔ a = ∅ ∧ b = ∅.
Proof.
  rewrite dict_unpack2_union. split.
  - intros H. split; apply map_eq; intros k; rewrite lookup_empty;
      apply (f_equal (.!! k)) in H; rewrite lookup_union, lookup_empty in H;
      destruct (b !! k), (a !! k); done.
  - intros [-> ->]. by rewrite (left_id_L ∅ (∪)).
Qed.

End python_builtins.

Section scope_minimum.

Lemma min_from_le_current (c : Scope.t) (l : list Scope.t) :
  Scope.le (min_from c l) c.
Proof.
  revert c. induction l as [|x l IH]; intros c; simpl.
  - unfold Scope.le. lia.
  - specialize (IH (if Scope.ltb x c then x else c)).
    unfold Scope.le, Scope.ltb in *.
    destruct (Z.ltb_spec (Scope.value x) (Scope.value c)); lia.
Qed.

Lemma min_from_lower_bound (c : Scope.t) (l : list Scope.t) (x : Scope.t) :
  x ∈ c :: l → Scope.le (min_from c l) x.
Proof.
  revert c. induction l as [|y l IH]; intros c Hin; simpl.
  - apply list_elem_of_singleton in Hin as ->. unfold Scope.le. lia.
  - pose proof (min_from_le_current (if Scope.ltb y c then y else c) l) as Hle.
    apply elem_of_cons in Hin as [Heq|Hin].
    + unfold Scope.le, Scope.ltb in *.
      destruct (Z.ltb_spec (Scope.value y) (Scope.value c)); subst; lia.
    + apply elem_of_cons in Hin as [Heq|Hin].
      * unfold Scope.le, Scope.ltb in *.
        destruct (Z.ltb_spec (Scope.value y) (Scope.value c)); subst; lia.
      * apply IH. by apply list_elem_of_further.
Qed.

Lemma min_from_elem (c : Scope.t) (l : list Scope.t) : min_from c l ∈ c :: l.
Proof.
  revert c. induction l as [|y l IH]; intros c; simpl.
  - apply list_elem_of_here.
  - specialize (IH (if Scope.ltb y c then y else c)).
    apply elem_of_cons in IH as [->|IH].
    + destruct (Scope.ltb y c).
      * apply list_elem_of_further, list_elem_of_here.
      * apply list_elem_of_here.
    + by do 2 apply list_elem_of_further.
Qed.

End scope_minimum.

Lemma attached_values (self : Task.t) (dn : DataNode.t) :
  attached self dn ↔
  dn ∈ values (Task._Task__input self) ++ values (Task._Task__output self).
Proof.
  unfold attached, Task.input, Task.output.
  rewrite elem_of_app, !elem_of_values. split.
  - intros [k [Hk|Hk]]; [left|right]; by exists k.
  - intros [[k Hk]|[k Hk]]; exists k; [by left|by right].
Qed.

(** C2: the scope of a task is GLOBAL when it has no data node, and
    otherwise the scope of one of its attached data nodes that is below
    or equal to the scope of every attached data node in the order
    GLOBAL < CYCLE < SCENARIO < PIPELINE.  [Task.scope] is a function of
    the task alone. *)
Theorem task_scope_broadest_attached (self : Task.t) :
  (Task.data_nodes self = ∅ → Task.scope self = Scope.GLOBAL) ∧
  (Task.data_nodes self ≠ ∅ →
     (∃ dn, attached self dn ∧ Task.scope self = DataNode.scope dn) ∧
     (∀ dn, attached self dn →
            Scope.le (Task.scope self) (DataNode.scope dn))).
Proof.
  unfold Task.data_nodes, Task.input, Task.output. split.
  - intros [Hi Ho]%dict_unpack2_empty. unfold Task.scope.
    rewrite Hi, Ho. reflexivity.
  - intros Hne.
    assert (values (Task._Task__input self) ++ values (Task._Task__output self) ≠ [])
      as Hvals.
    { intros [Hi%values_nil Ho%values_nil]%app_eq_nil.
      apply Hne, dict_unpack2_empty. done. }
    unfold Task.scope.
    destruct (DataNode.scope <$>
                values (Task._Task__input self) ++ values (Task._Task__output self))
      as [|s rest] eqn:Hs.
    { apply fmap_nil_inv in Hs. done. }
    split.
    + pose proof (min_from_elem s rest) as Hin.
      rewrite <- Hs in Hin. apply list_elem_of_fmap in Hin as [dn [Heq Hdn]].
      exists dn. split; [by apply attached_values | done].
    + intros dn Hdn%attached_values. apply min_from_lower_bound.
      rewrite <- Hs. apply list_elem_of_fmap. by exists dn.
Qed.

Lemma task_scope_broadest_attached_witness :
  Task.scope bare_task = Scope.GLOBAL ∧
  Scope.le (Task.scope sample_task) (DataNode.scope sample_pipeline_node).
Proof.
  split.
  - apply (task_scope_broadest_attached bare_task). reflexivity.
  - apply (task_scope_broadest_attached sample_task).
    + intros H. apply (f_equal (.!! "report")) in H. vm_compute in H. discriminate H.
    + exists "report". right. vm_compute. reflexivity.
Defined.

(** The scenario of section 8: one SCENARIO-scoped input and one
    PIPELINE-scoped output give the scope SCENARIO; no data node gives
    GLOBAL. *)
Example task_scope_scenario_and_pipeline :
  Task.scope sample_task = Scope.SCENARIO ∧ Task.scope bare_task = Scope.GLOBAL.
Proof. split; vm_compute; reflexivity. Qed.

(** The minimum runs over the input and the output nodes, not over the
    merged [data_nodes] view: an input hidden there by an output of the
    same [config_id] still counts. *)
Example task_scope_counts_shadowed_input :
  values (Task.data_nodes colliding_task) = [sample_scenario_node] ∧
  Task.scope colliding_task = Scope.GLOBAL.
Proof. split; vm_compute; reflexivity. Qed.

(** C6: [data_nodes] is the union of the input and the output mappings,
    and on a key that both hold the output entry is the one kept. *)
Theorem task_data_nodes_output_over_input (self : Task.t) :
  Task.data_nodes self = Task.output self ∪ Task.input self ∧
  ∀ k, Task.data_nodes self !! k =
         match Task.output self !! k with
         | Some dn => Some dn
         | None => Task.input self !! k
         end.
Proof.
  unfold Task.data_nodes. split.
  - apply dict_unpack2_union.
  - intros k. apply dict_unpack2_lookup.
Qed.

Example task_data_nodes_collision :
  let self := Task.mk "compute" "TASK_compute_0" None
                (dict_by_config_id [sample_global_sales_node; sample_pipeline_node])
                (dict_by_config_id [sample_scenario_node]) "print" in
  Task.data_nodes self !! "sales" = Some sample_scenario_node ∧
  Task.data_nodes self !! "report" = Some sample_pipeline_node.
Proof. split; vm_compute; reflexivity. Qed.

Lemma foldl_insert_by_config_id_lookup (nodes : list DataNode.t)
    (d : gmap string DataNode.t) (k : string) :
  foldl (λ d dn, <[DataNode.config_id dn := dn]> d) d nodes !! k =
    match last_with_config_id k nodes with
    | Some dn => Some dn
    | None => d !! k
    end.
Proof.
  unfold last_with_config_id. revert d.
  induction nodes as [|x nodes IH]; intros d; simpl; [done|].
  rewrite IH, filter_cons. case_decide as Hk.
  - rewrite last_cons.
    destruct (last (filter (λ dn, DataNode.config_id dn = k) nodes)); [done|].
    by rewrite Hk, lookup_insert_eq.
  - destruct (last (filter (λ dn, DataNode.config_id dn = k) nodes)); [done|].
    by rewrite lookup_insert_ne.
Qed.

Lemma dict_by_config_id_lookup (nodes : list DataNode.t) (k : string) :
  dict_by_config_id nodes !! k = last_with_config_id k nodes.
Proof.
  unfold dict_by_config_id. rewrite foldl_insert_by_config_id_lookup.
  rewrite lookup_empty. by destruct (last_with_config_id k nodes).
Qed.

Lemma last_with_config_id_is_Some (nodes : list DataNode.t) (k : string) :
  is_Some (last_with_config_id k nodes) ↔
  ∃ dn, dn ∈ nodes ∧ DataNode.config_id dn = k.
Proof.
  unfold last_with_config_id. rewrite last_is_Some. split.
  - intros Hne.
    destruct (filter (λ dn, DataNode.config_id dn = k) nodes) as [|dn l] eqn:Hf; [done|].
    assert (dn ∈ filter (λ dn, DataNode.config_id dn = k) nodes) as Hdn
      by (rewrite Hf; apply list_elem_of_here).
    apply list_elem_of_filter in Hdn as [Hk Hin]. by exists dn.
  - intros [dn [Hin Hk]] Hnil.
    assert (dn ∈ filter (λ dn, DataNode.config_id dn = k) nodes) as Hdn
      by (apply list_elem_of_filter; done).
    rewrite Hnil in Hdn. by apply not_elem_of_nil in Hdn.
Qed.

Lemma task_init_Ok config_id function input output id parent_id uuid4 self :
  Task.__init__ config_id function input output id parent_id uuid4 = Ok self →
  is_identifier config_id = true ∧
  self = Task.mk config_id
           (py_or id (join Task.__ID_SEPARATOR [Task._ID_PREFIX; config_id; uuid4]))
           parent_id (dict_by_config_id (or_empty input))
           (dict_by_config_id (or_empty output)) function.
Proof.
  unfold Task.__init__, _validate_id.
  destruct (is_identifier config_id); simpl; [|discriminate].
  intros [= <-]. done.
Qed.

(** C10: the input and the output mapping of a constructed task hold,
    under each [config_id], the last data node of the iterable that
    carries it; a [config_id] is a key exactly when some node of the
    iterable carries it, so duplicates are neither rejected nor kept
    side by side. *)
Theorem task_mappings_keep_last_duplicate
    config_id function input output id parent_id uuid4 self :
  Task.__init__ config_id function input output id parent_id uuid4 = Ok self →
  ∀ k,
    Task.input self !! k = last_with_config_id k (or_empty input) ∧
    Task.output self !! k = last_with_config_id k (or_empty output) ∧
    (is_Some (Task.input self !! k) ↔
       ∃ dn, dn ∈ or_empty input ∧ DataNode.config_id dn = k) ∧
    (is_Some (Task.output self !! k) ↔
       ∃ dn, dn ∈ or_empty output ∧ DataNode.config_id dn = k).
Proof.
  intros [_ ->]%task_init_Ok k. unfold Task.input, Task.output. simpl.
  rewrite !dict_by_config_id_lookup, !last_with_config_id_is_Some. done.
Qed.

Lemma task_mappings_keep_last_duplicate_witness :
  ∃ self,
    Task.__init__ "compute" "print"
      (Some [sample_scenario_node; sample_pipeline_node; sample_global_sales_node])
      None None None "7f1c" = Ok self ∧
    Task.input self !! "sales" = Some sample_global_sales_node.
Proof.
  eexists. split; [vm_compute; reflexivity|].
  refine (proj1 (task_mappings_keep_last_duplicate "compute" "print"
    (Some [sample_scenario_node; sample_pipeline_node; sample_global_sales_node])
    None None None "7f1c" _ _ "sales")).
  vm_compute. reflexivity.
Defined.

(** C7, as the code has it: a task built from a valid [config_id]
    keeps that [config_id]; without an id, or with an empty one, its id
    is [TASK_<config_id>_<uuid>]; a non-empty id is used unchanged. *)
Theorem task_init_assigns_id
    config_id function input output id parent_id uuid4 :
  is_identifier config_id = true →
  ∃ self,
    Task.__init__ config_id function input output id parent_id uuid4 = Ok self ∧
    Task.config_id self = config_id ∧
    (id = None ∨ id = Some "" →
       Task.id self = generated_task_id config_id uuid4) ∧
    (∀ s, id = Some s → s ≠ "" → Task.id self = s).
Proof.
  intros Hid. unfold Task.__init__, _validate_id. rewrite Hid. simpl.
  eexists. split; [reflexivity|]. simpl. split; [reflexivity|]. split.
  - intros [->| ->]; reflexivity.
  - intros s -> Hs. unfold py_or. by rewrite decide_False.
Qed.

Lemma task_init_assigns_id_witness :
  ∃ self,
    Task.__init__ "compute" "print" None None None None "7f1c" = Ok self ∧
    Task.id self = "TASK_compute_7f1c".
Proof.
  destruct (task_init_assigns_id "compute" "print" None None None None "7f1c")
    as (self & Hinit & _ & Hgen & _).
  - vm_compute. reflexivity.
  - exists self. split; [exact Hinit|]. apply Hgen. left. reflexivity.
Defined.

(** C7 as stated fails for the empty id: it is supplied and not
    kept. *)
Lemma task_init_empty_id_replaced :
  ¬ (∀ config_id function input output s parent_id uuid4 self,
       Task.__init__ config_id function input output (Some s) parent_id uuid4
         = Ok self →
       Task.id self = s).
Proof.
  intros H.
  specialize (H "compute" "print" None None "" None "7f1c" _ eq_refl).
  vm_compute in H. discriminate H.
Qed.

(** C4, as the code has it: a name that passes identifier validation
    is looked up in the input mapping, then in the output mapping, and a
    name found in neither fails with the error "<name> is not an
    attribute of task <id>"; a name that fails validation fails with
    the validation error before any lookup. *)
Theorem task_getattr_forwarding (self : Task.t) (attribute_name : string) :
  (is_identifier attribute_name = true →
     (∀ dn, Task.input self !! attribute_name = Some dn →
            Task.__getattr__ self attribute_name = Ok dn) ∧
     (∀ dn, Task.input self !! attribute_name = None →
            Task.output self !! attribute_name = Some dn →
            Task.__getattr__ self attribute_name = Ok dn) ∧
     (Task.input self !! attribute_name = None →
      Task.output self !! attribute_name = None →
      Task.__getattr__ self attribute_name =
        Raise (AttributeError
                 (attribute_name +:+ " is not an attribute of task " +:+ Task.id self)))) ∧
  (is_identifier attribute_name = false →
     Task.__getattr__ self attribute_name = Raise (ValidationFailure attribute_name)).
Proof.
  unfold Task.__getattr__, _validate_id. split; intros ->; simpl; [|done].
  split; [|split].
  - by intros dn ->.
  - by intros dn -> ->.
  - by intros -> ->.
Qed.

Lemma task_getattr_forwarding_witness :
  Task.__getattr__ sample_task "sales" = Ok sample_scenario_node ∧
  Task.__getattr__ sample_task "report" = Ok sample_pipeline_node ∧
  Task.__getattr__ sample_task "stock" =
    Raise (AttributeError "stock is not an attribute of task TASK_compute_0") ∧
  Task.__getattr__ sample_task "1x" = Raise (ValidationFailure "1x").
Proof.
  pose proof (task_getattr_forwarding sample_task "sales") as [Hsales _].
  pose proof (task_getattr_forwarding sample_task "report") as [Hreport _].
  pose proof (task_getattr_forwarding sample_task "stock") as [Hstock _].
  pose proof (task_getattr_forwarding sample_task "1x") as [_ Hbad].
  destruct (Hsales eq_refl) as [H1 _].
  destruct (Hreport eq_refl) as [_ [H2 _]].
  destruct (Hstock eq_refl) as [_ [_ H3]].
  split; [apply H1; vm_compute; reflexivity|].
  split; [apply H2; vm_compute; reflexivity|].
  split; [apply H3; vm_compute; reflexivity|].
  apply Hbad. vm_compute. reflexivity.
Defined.

(** The input mapping wins over the output mapping on a shared
    name. *)
Example task_getattr_input_first :
  Task.output colliding_task !! "sales" = Some sample_scenario_node ∧
  Task.__getattr__ colliding_task "sales" = Ok sample_global_sales_node.
Proof. split; vm_compute; reflexivity. Qed.

(** C4 as stated fails for a name that is not an identifier: it is a
    key of neither mapping, and the failure is the validation error,
    not the unknown-attribute error. *)
Lemma task_getattr_invalid_name :
  ¬ (∀ self attribute_name,
       Task.input self !! attribute_name = None →
       Task.output self !! attribute_name = None →
       Task.__getattr__ self attribute_name =
         Raise (unknown_attribute self attribute_name)).
Proof.
  intros H. specialize (H bare_task "1x" eq_refl eq_refl).
  vm_compute in H. discriminate H.
Qed.

(** * Properties of the manager *)

Section manager_runs.

Lemma run_from_model (m : Model.t) (st : State) :
  _DataManager.from_model m st =
    (Ok (DataNode.mk (Model.id m) (Model.config_id m) (Model.scope m)
           (Model.parent_id m) (Model.storage_type m) (fresh (dom (heap st)))),
     mkState (<[fresh (dom (heap st)) := Model.properties m]> (heap st))
       (repository st)).
Proof. reflexivity. Qed.

Lemma run_get (x : string + DataNode.t) (st : State) :
  _DataManager._get x st =
    match repository st !! _DataManager.entity_id x with
    | Some m =>
        (Ok (Some (DataNode.mk (Model.id m) (Model.config_id m) (Model.scope m)
                     (Model.parent_id m) (Model.storage_type m)
                     (fresh (dom (heap st))))),
         mkState (<[fresh (dom (heap st)) := Model.properties m]> (heap st))
           (repository st))
    | None => (Ok None, st)
    end.
Proof.
  unfold _DataManager._get, Repository.load, mbind, M_bind, get_state. simpl.
  destruct (repository st !! _DataManager.entity_id x); reflexivity.
Qed.

Lemma run_create_and_set_unknown cfg parent_id uuid4 st :
  _DataManager.DATA_NODE_CLASS_MAP (Config.storage_type cfg) = None →
  _DataManager._create_and_set cfg parent_id uuid4 st =
    (Raise (InvalidDataNodeType (Config.storage_type cfg)), st).
Proof. intros H. unfold _DataManager._create_and_set. rewrite H. reflexivity. Qed.

Lemma run_create_and_set_known cfg parent_id uuid4 st variant :
  _DataManager.DATA_NODE_CLASS_MAP (Config.storage_type cfg) = Some variant →
  let props := default ∅ (heap st !! Config.properties cfg) in
  let l := fresh (dom (heap st)) in
  let dn := DataNode.mk (generated_data_node_id (Config.id cfg) uuid4)
              (Config.id cfg) (Config.scope cfg) parent_id variant l in
  _DataManager._create_and_set cfg parent_id uuid4 st =
    (Ok dn,
     mkState (<[l := props]> (heap st))
       (<[DataNode.id dn :=
            Model.mk (DataNode.id dn) (Config.id cfg) (Config.scope cfg)
              parent_id variant props]> (repository st))).
Proof.
  intros H. unfold _DataManager._create_and_set. rewrite H.
  unfold mbind, M_bind, dict_copy, dict_items, dict_new, _DataManager._set,
    _DataManager.to_model, dict_items, get_state, set_heap, set_repository,
    mret, M_ret, Repository.save. simpl.
  rewrite lookup_insert_eq. reflexivity.
Qed.

Lemma run_get_or_create cfg scenario_id pipeline_id uuid4 st :
  _DataManager._get_or_create cfg scenario_id pipeline_id uuid4 st =
    let parent_id :=
      _DataManager.resolved_parent_id (Config.scope cfg) scenario_id pipeline_id in
    match filter (_DataManager.same_key (Config.id cfg) parent_id)
            (Repository.get_all (repository st)) with
    | m :: _ => _DataManager.from_model m st
    | [] => _DataManager._create_and_set cfg parent_id uuid4 st
    end.
Proof.
  unfold _DataManager._get_or_create, mbind, M_bind, get_state. simpl.
  destruct (filter _ _); reflexivity.
Qed.

End manager_runs.

(** C8: for an id the repository has no record of, the manager's [get]
    returns [None] and raises nothing, and leaves the state as it was,
    while the repository's [load] raises [ModelNotFound]. *)
Theorem absent_id_get_none_load_raises (x : string + DataNode.t) (st : State) :
  repository st !! _DataManager.entity_id x = None →
  _DataManager._get x st = (Ok None, st) ∧
  Repository.load (_DataManager.entity_id x) (repository st) =
    Raise (ModelNotFound (_DataManager.entity_id x)).
Proof.
  intros Habsent. split.
  - rewrite run_get, Habsent. reflexivity.
  - unfold Repository.load. rewrite Habsent. reflexivity.
Qed.

Lemma absent_id_get_none_load_raises_witness :
  _DataManager._get (inl "test_data_node_2") empty_state = (Ok None, empty_state) ∧
  Repository.load "test_data_node_2" (repository empty_state) =
    Raise (ModelNotFound "test_data_node_2").
Proof.
  apply (absent_id_get_none_load_raises (inl "test_data_node_2") empty_state).
  vm_compute. reflexivity.
Defined.

(** [test_delete] passes: among others, [get] of the deleted id is
    [None]. *)
Example test_delete_passes : result_of test_delete empty_state = Ok true.
Proof. vm_compute. reflexivity. Qed.

Example test_get_if_not_exists_passes :
  result_of test_get_if_not_exists empty_state = Ok true.
Proof. vm_compute. reflexivity. Qed.

(** C9: with a storage type tag outside the table, [create_and_set]
    fails with [InvalidDataNodeType] and leaves the heap and the
    repository as they were; with a tag of the table it returns an
    entity of the variant the table gives, [csv] giving the CSV
    variant, and the repository holds the entity under its id. *)
Theorem create_and_set_dispatches_on_storage_type
    (cfg : Config.t) (parent_id : option string) (uuid4 : string) (st : State) :
  (_DataManager.DATA_NODE_CLASS_MAP (Config.storage_type cfg) = None →
     _DataManager._create_and_set cfg parent_id uuid4 st =
       (Raise (InvalidDataNodeType (Config.storage_type cfg)), st)) ∧
  (∀ variant,
     _DataManager.DATA_NODE_CLASS_MAP (Config.storage_type cfg) = Some variant →
     ∃ dn st',
       _DataManager._create_and_set cfg parent_id uuid4 st = (Ok dn, st') ∧
       DataNode.storage_type dn = variant ∧
       repository st' !! DataNode.id dn = Some (model_of st' dn)) ∧
  (Config.storage_type cfg = "csv" →
     ∃ dn st',
       _DataManager._create_and_set cfg parent_id uuid4 st = (Ok dn, st') ∧
       DataNode.storage_type dn = Csv).
Proof.
  split; [apply run_create_and_set_unknown|]. split.
  - intros variant Hv. eexists _, _. split; [by apply run_create_and_set_known|].
    split; [reflexivity|]. simpl. rewrite lookup_insert_eq.
    unfold model_of. simpl. by rewrite lookup_insert_eq.
  - intros Hcsv. eexists _, _. split.
    + apply (run_create_and_set_known cfg parent_id uuid4 st Csv).
      rewrite Hcsv. reflexivity.
    + reflexivity.
Qed.

Lemma create_and_set_dispatches_on_storage_type_witness :
  _DataManager._create_and_set wrong_type_dn_config None "uuid-01"
      state_with_csv_config
    = (Raise (InvalidDataNodeType "bar"), state_with_csv_config) ∧
  ∃ dn st',
    _DataManager._create_and_set csv_dn_config None "uuid-01" state_with_csv_config
      = (Ok dn, st') ∧
    DataNode.storage_type dn = Csv.
Proof.
  split.
  - apply (create_and_set_dispatches_on_storage_type wrong_type_dn_config None
             "uuid-01" state_with_csv_config).
    vm_compute. reflexivity.
  - apply (create_and_set_dispatches_on_storage_type csv_dn_config None
             "uuid-01" state_with_csv_config).
    reflexivity.
Defined.

Example test_create_raises_exception_with_wrong_type_passes :
  result_of test_create_raises_exception_with_wrong_type empty_state = Ok true.
Proof. vm_compute. reflexivity. Qed.

(** The tags of the table. *)
Lemma DATA_NODE_CLASS_MAP_None (tag : string) :
  _DataManager.DATA_NODE_CLASS_MAP tag = None ↔
  tag ∉ ["csv"; "in_memory"; "pickle"; "sql"].
Proof.
  unfold _DataManager.DATA_NODE_CLASS_MAP.
  rewrite !not_elem_of_cons. repeat case_decide; split; try done.
  all: try (intros (? & ? & ? & ? & _); done).
  intros _. repeat split; try done. apply not_elem_of_nil.
Qed.

Lemma append_inj_r (p a b : string) : p +:+ a = p +:+ b → a = b.
Proof.
  induction p as [|c p IH]; simpl; [done|]. intros [= H]. by apply IH.
Qed.

Lemma generated_data_node_id_inj (config_id u1 u2 : string) :
  generated_data_node_id config_id u1 = generated_data_node_id config_id u2 →
  u1 = u2.
Proof.
  unfold generated_data_node_id. intros H.
  by do 3 apply append_inj_r in H.
Qed.

(** C5: two calls of [create_and_set] with the same configuration, each
    with the UUID drawn for it, return entities with different ids when
    the UUIDs differ; the second call does not reuse or replace the
    first entity, and the manager's [get] finds both afterwards. *)
Theorem create_and_set_twice_distinct_ids
    (cfg : Config.t) (parent_id : option string) (uuid_1 uuid_2 : string)
    (st : State) (variant : StorageType) :
  _DataManager.DATA_NODE_CLASS_MAP (Config.storage_type cfg) = Some variant →
  uuid_1 ≠ uuid_2 →
  ∃ dn dn_2 st1 st2,
    _DataManager._create_and_set cfg parent_id uuid_1 st = (Ok dn, st1) ∧
    _DataManager._create_and_set cfg parent_id uuid_2 st1 = (Ok dn_2, st2) ∧
    DataNode.id dn_2 ≠ DataNode.id dn ∧
    (∃ e, result_of (_DataManager._get (inl (DataNode.id dn))) st2 = Ok (Some e) ∧
          DataNode.id e = DataNode.id dn) ∧
    (∃ e, result_of (_DataManager._get (inl (DataNode.id dn_2))) st2 = Ok (Some e) ∧
          DataNode.id e = DataNode.id dn_2).
Proof.
  intros Hv Hne.
  eexists _, _, _, _.
  split; [by apply run_create_and_set_known|].
  split; [by apply run_create_and_set_known|].
  assert (generated_data_node_id (Config.id cfg) uuid_2
          ≠ generated_data_node_id (Config.id cfg) uuid_1) as Hids.
  { intros Heq%generated_data_node_id_inj. by apply Hne. }
  split; [exact Hids|]. unfold result_of. rewrite !run_get. simpl. split.
  - rewrite lookup_insert_ne by exact Hids. rewrite lookup_insert_eq.
    eexists. split; reflexivity.
  - rewrite lookup_insert_eq. eexists. split; reflexivity.
Qed.

Lemma create_and_set_twice_distinct_ids_witness :
  ∃ dn dn_2 st1 st2,
    _DataManager._create_and_set csv_dn_config None "uuid-01" state_with_csv_config
      = (Ok dn, st1) ∧
    _DataManager._create_and_set csv_dn_config None "uuid-02" st1 = (Ok dn_2, st2) ∧
    DataNode.id dn_2 ≠ DataNode.id dn.
Proof.
  destruct (create_and_set_twice_distinct_ids csv_dn_config None "uuid-01"
              "uuid-02" state_with_csv_config Csv)
    as (dn & dn_2 & st1 & st2 & H1 & H2 & H3 & _).
  - reflexivity.
  - discriminate.
  - exists dn, dn_2, st1, st2. split; [exact H1|]. split; [exact H2|exact H3].
Defined.

Example test_create_from_same_config_generates_new_data_node_and_new_id_passes :
  result_of test_create_from_same_config_generates_new_data_node_and_new_id
    empty_state = Ok true.
Proof. vm_compute. reflexivity. Qed.

(** C3: the entity [create_and_set] returns holds a mapping of its own
    with the contents of the configuration's properties: a later write
    to the entity's mapping changes it and leaves the configuration's
    mapping as it was, and a later write to the configuration's mapping
    leaves the entity's mapping as it was. *)
Theorem created_properties_are_an_isolated_copy
    (cfg : Config.t) (parent_id : option string) (uuid4 : string)
    (st : State) (variant : StorageType) :
  _DataManager.DATA_NODE_CLASS_MAP (Config.storage_type cfg) = Some variant →
  is_Some (heap st !! Config.properties cfg) →
  ∃ dn st',
    _DataManager._create_and_set cfg parent_id uuid4 st = (Ok dn, st') ∧
    DataNode.properties dn ≠ Config.properties cfg ∧
    heap st' !! DataNode.properties dn = heap st !! Config.properties cfg ∧
    heap st' !! Config.properties cfg = heap st !! Config.properties cfg ∧
    (∀ k v,
       let st'' := state_after (dict_setitem (DataNode.properties dn) k v) st' in
       heap st'' !! DataNode.properties dn
         = (λ d, <[k := v]> d) <$> heap st' !! DataNode.properties dn ∧
       heap st'' !! Config.properties cfg = heap st' !! Config.properties cfg) ∧
    (∀ k v,
       let st'' := state_after (dict_setitem (Config.properties cfg) k v) st' in
       heap st'' !! Config.properties cfg
         = (λ d, <[k := v]> d) <$> heap st' !! Config.properties cfg ∧
       heap st'' !! DataNode.properties dn = heap st' !! DataNode.properties dn).
Proof.
  intros Hv [props Hprops].
  assert (fresh (dom (heap st)) ≠ Config.properties cfg) as Hfresh.
  { intros Heq. apply (is_fresh (dom (heap st))). rewrite Heq.
    apply elem_of_dom. by exists props. }
  eexists _, _. split; [by apply run_create_and_set_known|]. simpl.
  split; [exact Hfresh|]. split; [by rewrite lookup_insert_eq, Hprops|].
  split; [by rewrite lookup_insert_ne|].
  split; intros k v; unfold state_after; simpl; split.
  - by rewrite lookup_alter_eq.
  - by rewrite lookup_alter_ne.
  - by rewrite lookup_alter_eq.
  - rewrite lookup_alter_ne; [done|]. by apply not_eq_sym.
Qed.

Lemma created_properties_are_an_isolated_copy_witness :
  ∃ dn st',
    _DataManager._create_and_set csv_dn_config None "uuid-01" state_with_csv_config
      = (Ok dn, st') ∧
    heap (state_after (dict_setitem (DataNode.properties dn) "baz" (PStr "qux")) st')
      !! Config.properties csv_dn_config
    = heap state_with_csv_config !! Config.properties csv_dn_config.
Proof.
  destruct (created_properties_are_an_isolated_copy csv_dn_config None "uuid-01"
              state_with_csv_config Csv)
    as (dn & st' & Hrun & _ & _ & Hcfg & Hdn & _).
  - reflexivity.
  - vm_compute. eexists. reflexivity.
  - exists dn, st'. split; [exact Hrun|].
    destruct (Hdn "baz" (PStr "qux")) as [_ Hkeep].
    rewrite Hkeep. exact Hcfg.
Defined.

(** The test of the copy passes whichever recognised tag the
    configuration carries. *)
Example test_create_data_node_and_modify_properties_does_not_modify_config_passes :
  Forall
    (λ tag,
       result_of
         (test_create_data_node_and_modify_properties_does_not_modify_config tag)
         empty_state = Ok true)
    ["csv"; "in_memory"; "pickle"; "sql"].
Proof. repeat constructor; vm_compute; reflexivity. Qed.

Section get_or_create.

Lemma persisted_lookup (st : State) (m : Model.t) :
  persisted st m ↔ ∃ k, repository st !! k = Some m.
Proof. apply (elem_of_values (repository st) m). Qed.

Lemma model_eta (m : Model.t) :
  Model.mk (Model.id m) (Model.config_id m) (Model.scope m) (Model.parent_id m)
    (Model.storage_type m) (Model.properties m) = m.
Proof. by destruct m. Qed.

Lemma filter_same_key_head (st : State) (config_id : string)
    (parent_id : option string) (m : Model.t) (rest : list Model.t) :
  filter (_DataManager.same_key config_id parent_id)
    (Repository.get_all (repository st)) = m :: rest →
  persisted st m ∧ _DataManager.same_key config_id parent_id m.
Proof.
  intros Hf.
  assert (m ∈ filter (_DataManager.same_key config_id parent_id)
                (Repository.get_all (repository st))) as Hin
    by (rewrite Hf; apply list_elem_of_here).
  apply list_elem_of_filter in Hin as [Hkey Hin]. done.
Qed.

Lemma filter_same_key_nil (st : State) (config_id : string)
    (parent_id : option string) :
  filter (_DataManager.same_key config_id parent_id)
    (Repository.get_all (repository st)) = [] ↔
  ∀ m, persisted st m → ¬ _DataManager.same_key config_id parent_id m.
Proof.
  split.
  - intros Hf m Hm Hkey. by apply (filter_nil_not_elem_of _ _ m Hf Hkey).
  - intros Hnone.
    destruct (filter _ _) as [|m rest] eqn:Hf; [done|].
    apply filter_same_key_head in Hf as [Hm Hkey]. by destruct (Hnone m).
Qed.

(** What a successful call returns and leaves, in both branches. *)
Lemma get_or_create_Ok cfg scenario_id pipeline_id uuid4 st dn st' :
  _DataManager._get_or_create cfg scenario_id pipeline_id uuid4 st = (Ok dn, st') →
  let parent_id :=
    _DataManager.resolved_parent_id (Config.scope cfg) scenario_id pipeline_id in
  model_of st' dn ∈
    filter (_DataManager.same_key (Config.id cfg) parent_id)
      (Repository.get_all (repository st')) ∧
  ((head (filter (_DataManager.same_key (Config.id cfg) parent_id)
            (Repository.get_all (repository st))) = Some (model_of st' dn) ∧
    repository st' = repository st) ∨
   (filter (_DataManager.same_key (Config.id cfg) parent_id)
      (Repository.get_all (repository st)) = [] ∧
    DataNode.id dn = generated_data_node_id (Config.id cfg) uuid4 ∧
    repository st' = <[DataNode.id dn := model_of st' dn]> (repository st))).
Proof.
  rewrite run_get_or_create. simpl.
  destruct (filter _ _) as [|m rest] eqn:Hf.
  - destruct (_DataManager.DATA_NODE_CLASS_MAP (Config.storage_type cfg))
      as [variant|] eqn:Hv.
    + rewrite (run_create_and_set_known _ _ _ _ _ Hv). simpl.
      intros [= <- <-]. unfold model_of. simpl. rewrite lookup_insert_eq.
      split; [|right; done].
      apply list_elem_of_filter. split; [done|].
      apply (elem_of_values _ _).
      eexists. apply lookup_insert_eq.
    + rewrite (run_create_and_set_unknown _ _ _ _ Hv). discriminate.
  - rewrite run_from_model. intros [= <- <-]. unfold model_of. simpl.
    rewrite lookup_insert_eq. simpl. rewrite model_eta.
    split; [|left; done].
    rewrite Hf. apply list_elem_of_here.
Qed.

Lemma get_or_create_depends_on_key cfg scenario_id pipeline_id scenario_id'
    pipeline_id' uuid4 st :
  _DataManager.resolved_parent_id (Config.scope cfg) scenario_id' pipeline_id'
    = _DataManager.resolved_parent_id (Config.scope cfg) scenario_id pipeline_id →
  _DataManager._get_or_create cfg scenario_id' pipeline_id' uuid4 st
    = _DataManager._get_or_create cfg scenario_id pipeline_id uuid4 st.
Proof. intros Hkey. rewrite !run_get_or_create. simpl. by rewrite Hkey. Qed.

Lemma get_or_create_reuse cfg scenario_id pipeline_id uuid4 st :
  let parent_id :=
    _DataManager.resolved_parent_id (Config.scope cfg) scenario_id pipeline_id in
  (∃ m, persisted st m ∧ _DataManager.same_key (Config.id cfg) parent_id m) →
  ∃ dn st',
    _DataManager._get_or_create cfg scenario_id pipeline_id uuid4 st = (Ok dn, st') ∧
    persisted st (model_of st' dn) ∧
    _DataManager.same_key (Config.id cfg) parent_id (model_of st' dn) ∧
    repository st' = repository st.
Proof.
  intros parent_id [m [Hm Hkey]].
  destruct (filter (_DataManager.same_key (Config.id cfg) parent_id)
              (Repository.get_all (repository st))) as [|m' rest] eqn:Hf.
  { by destruct (proj1 (filter_same_key_nil st _ _) Hf m). }
  pose proof (filter_same_key_head _ _ _ _ _ Hf) as [Hm' Hkey'].
  eexists _, _. split.
  { rewrite run_get_or_create. simpl. fold parent_id. rewrite Hf.
    apply run_from_model. }
  unfold model_of. simpl. rewrite lookup_insert_eq. simpl. rewrite model_eta.
  done.
Qed.

Lemma get_or_create_create cfg scenario_id pipeline_id uuid4 st :
  let parent_id :=
    _DataManager.resolved_parent_id (Config.scope cfg) scenario_id pipeline_id in
  (∀ m, persisted st m → ¬ _DataManager.same_key (Config.id cfg) parent_id m) →
  _DataManager._get_or_create cfg scenario_id pipeline_id uuid4 st
    = _DataManager._create_and_set cfg parent_id uuid4 st ∧
  ∀ dn st',
    _DataManager._get_or_create cfg scenario_id pipeline_id uuid4 st = (Ok dn, st') →
    DataNode.id dn = generated_data_node_id (Config.id cfg) uuid4 ∧
    DataNode.parent_id dn = parent_id ∧
    repository st' = <[DataNode.id dn := model_of st' dn]> (repository st).
Proof.
  intros parent_id Hnone%filter_same_key_nil. split.
  - rewrite run_get_or_create. simpl. fold parent_id. by rewrite Hnone.
  - intros dn st' Hrun.
    pose proof (get_or_create_Ok _ _ _ _ _ _ _ Hrun) as [Hin Hcase].
    apply list_elem_of_filter in Hin as [[_ Hparent] _].
    destruct Hcase as [[Hhead _]|(_ & Hid & Hrepo)].
    + fold parent_id in Hhead. by rewrite Hnone in Hhead.
    + done.
Qed.

Lemma get_or_create_keyed_by_id cfg scenario_id pipeline_id uuid4 st dn st' :
  keyed_by_id (repository st) →
  _DataManager._get_or_create cfg scenario_id pipeline_id uuid4 st = (Ok dn, st') →
  keyed_by_id (repository st') ∧
  repository st' !! DataNode.id dn = Some (model_of st' dn).
Proof.
  intros Hkeyed Hrun.
  pose proof (get_or_create_Ok _ _ _ _ _ _ _ Hrun) as [Hin Hcase].
  assert (keyed_by_id (repository st')) as Hkeyed'.
  { destruct Hcase as [[_ ->]|(_ & _ & ->)]; [done|].
    intros k m [[<- <-]|[_ Hk]]%lookup_insert_Some; [done|]. by apply Hkeyed. }
  split; [done|].
  apply list_elem_of_filter in Hin as [_ Hin].
  apply (elem_of_values _ _) in Hin as [k Hk].
  pose proof (Hkeyed' _ _ Hk) as Hid. simpl in Hid. by subst k.
Qed.

Lemma get_or_create_again cfg scenario_id pipeline_id uuid4 st dn st1
    scenario_id' pipeline_id' uuid4' :
  _DataManager._get_or_create cfg scenario_id pipeline_id uuid4 st = (Ok dn, st1) →
  _DataManager.resolved_parent_id (Config.scope cfg) scenario_id' pipeline_id'
    = _DataManager.resolved_parent_id (Config.scope cfg) scenario_id pipeline_id →
  ∃ dn' st2,
    _DataManager._get_or_create cfg scenario_id' pipeline_id' uuid4' st1
      = (Ok dn', st2) ∧
    DataNode.id dn' = DataNode.id dn ∧
    repository st2 = repository st1.
Proof.
  intros Hrun Hkey.
  pose proof (get_or_create_Ok _ _ _ _ _ _ _ Hrun) as [Hin Hcase].
  simpl in Hin, Hcase.
  set (parent_id :=
         _DataManager.resolved_parent_id (Config.scope cfg) scenario_id pipeline_id)
    in *.
  assert (∃ rest,
            filter (_DataManager.same_key (Config.id cfg) parent_id)
              (Repository.get_all (repository st1)) = model_of st1 dn :: rest)
    as [rest Hf].
  { destruct Hcase as [[Hhead Hrepo]|(Hnil & _ & Hrepo)].
    - rewrite Hrepo.
      destruct (filter _ (Repository.get_all (repository st))) as [|m rest];
        [done|].
      injection Hhead as ->. by exists rest.
    - destruct (filter _ (Repository.get_all (repository st1)))
        as [|m rest] eqn:Hf; [by apply not_elem_of_nil in Hin|].
      exists rest. f_equal.
      pose proof (filter_same_key_head _ _ _ _ _ Hf) as [Hm Hm_key].
      apply persisted_lookup in Hm as [k Hk]. rewrite Hrepo in Hk.
      apply lookup_insert_Some in Hk as [[_ Heq]|[_ Hk]]; [done|].
      exfalso. apply (proj1 (filter_same_key_nil st _ _) Hnil m); [|done].
      apply persisted_lookup. by exists k. }
  eexists _, _. split.
  { rewrite run_get_or_create. simpl. rewrite Hkey. fold parent_id. rewrite Hf.
    apply run_from_model. }
  done.
Qed.

Lemma get_or_create_other_key cfg scenario_id pipeline_id uuid4 st dn st1
    scenario_id' pipeline_id' uuid4' dn' st2 :
  keyed_by_id (repository st) →
  _DataManager._get_or_create cfg scenario_id pipeline_id uuid4 st = (Ok dn, st1) →
  _DataManager.resolved_parent_id (Config.scope cfg) scenario_id' pipeline_id'
    ≠ _DataManager.resolved_parent_id (Config.scope cfg) scenario_id pipeline_id →
  generated_data_node_id (Config.id cfg) uuid4' ∉ dom (repository st1) →
  _DataManager._get_or_create cfg scenario_id' pipeline_id' uuid4' st1
    = (Ok dn', st2) →
  DataNode.id dn' ≠ DataNode.id dn.
Proof.
  intros Hkeyed Hrun Hkey Hfresh Hrun' Hid.
  pose proof (get_or_create_keyed_by_id _ _ _ _ _ _ _ Hkeyed Hrun)
    as [Hkeyed1 Hdn].
  pose proof (get_or_create_Ok _ _ _ _ _ _ _ Hrun) as [Hin _].
  apply list_elem_of_filter in Hin as [[_ Hparent] _].
  pose proof (get_or_create_Ok _ _ _ _ _ _ _ Hrun') as [Hin' Hcase'].
  apply list_elem_of_filter in Hin' as [[_ Hparent'] _].
  destruct Hcase' as [[Hhead _]|(_ & Hgen & _)].
  - destruct (filter _ (Repository.get_all (repository st1)))
      as [|m rest] eqn:Hf; [done|].
    injection Hhead as ->.
    pose proof (filter_same_key_head _ _ _ _ _ Hf) as [Hm _].
    apply persisted_lookup in Hm as [k Hk].
    pose proof (Hkeyed1 _ _ Hk) as Hk_id. simpl in Hk_id. subst k.
    rewrite Hid, Hdn in Hk. apply (inj Some) in Hk.
    apply (f_equal Model.parent_id) in Hk. simpl in Hk, Hparent, Hparent'.
    apply Hkey. congruence.
  - apply Hfresh. rewrite <- Hgen, Hid. apply elem_of_dom. by eexists.
Qed.

End get_or_create.

(** [test_get_or_create] passes: the three scopes reuse and create as
    its assertions say, the call for [("other_scenario_id",
    "pipeline_2")] returning the entity of [("scenario_id",
    "pipeline_2")]. *)
Example test_get_or_create_passes :
  result_of test_get_or_create empty_state = Ok true.
Proof. vm_compute. reflexivity. Qed.

(** C1, as the code has it.  The key of reuse is the [config_id] and
    the resolved parent id: none for GLOBAL and CYCLE, the scenario id
    for SCENARIO, the pipeline id for PIPELINE.  A call depends on its
    scenario and pipeline ids through that key only.  When a persisted
    entity has the key, the call returns such an entity and leaves the
    repository as it was; when none has it, the call is
    [create_and_set] with the resolved parent id, and its entity is
    persisted under the generated id.  A second call under the same key
    returns the entity of the first and persists nothing; a second call
    under another key returns an entity with another id. *)
Theorem get_or_create_scope_identity
    (cfg : Config.t) (scenario_id pipeline_id : option string)
    (uuid4 : string) (st : State) :
  let parent_id :=
    _DataManager.resolved_parent_id (Config.scope cfg) scenario_id pipeline_id in
  parent_id = match Config.scope cfg with
              | Scope.GLOBAL | Scope.CYCLE => None
              | Scope.SCENARIO => scenario_id
              | Scope.PIPELINE => pipeline_id
              end ∧
  (∀ scenario_id' pipeline_id',
     _DataManager.resolved_parent_id (Config.scope cfg) scenario_id' pipeline_id'
       = parent_id →
     _DataManager._get_or_create cfg scenario_id' pipeline_id' uuid4 st
       = _DataManager._get_or_create cfg scenario_id pipeline_id uuid4 st) ∧
  ((∃ m, persisted st m ∧ _DataManager.same_key (Config.id cfg) parent_id m) →
   ∃ dn st',
     _DataManager._get_or_create cfg scenario_id pipeline_id uuid4 st = (Ok dn, st') ∧
     persisted st (model_of st' dn) ∧
     _DataManager.same_key (Config.id cfg) parent_id (model_of st' dn) ∧
     repository st' = repository st) ∧
  ((∀ m, persisted st m → ¬ _DataManager.same_key (Config.id cfg) parent_id m) →
   _DataManager._get_or_create cfg scenario_id pipeline_id uuid4 st
     = _DataManager._create_and_set cfg parent_id uuid4 st ∧
   ∀ dn st',
     _DataManager._get_or_create cfg scenario_id pipeline_id uuid4 st = (Ok dn, st') →
     DataNode.id dn = generated_data_node_id (Config.id cfg) uuid4 ∧
     DataNode.parent_id dn = parent_id ∧
     repository st' = <[DataNode.id dn := model_of st' dn]> (repository st)) ∧
  (∀ dn st1 scenario_id' pipeline_id' uuid4',
     _DataManager._get_or_create cfg scenario_id pipeline_id uuid4 st = (Ok dn, st1) →
     _DataManager.resolved_parent_id (Config.scope cfg) scenario_id' pipeline_id'
       = parent_id →
     ∃ dn' st2,
       _DataManager._get_or_create cfg scenario_id' pipeline_id' uuid4' st1
         = (Ok dn', st2) ∧
       DataNode.id dn' = DataNode.id dn ∧
       repository st2 = repository st1) ∧
  (∀ dn st1 scenario_id' pipeline_id' uuid4' dn' st2,
     keyed_by_id (repository st) →
     _DataManager._get_or_create cfg scenario_id pipeline_id uuid4 st = (Ok dn, st1) →
     _DataManager.resolved_parent_id (Config.scope cfg) scenario_id' pipeline_id'
       ≠ parent_id →
     generated_data_node_id (Config.id cfg) uuid4' ∉ dom (repository st1) →
     _DataManager._get_or_create cfg scenario_id' pipeline_id' uuid4' st1
       = (Ok dn', st2) →
     DataNode.id dn' ≠ DataNode.id dn).
Proof.
  intros parent_id. split; [by unfold parent_id; destruct (Config.scope cfg)|].
  split; [intros ? ?; apply get_or_create_depends_on_key|].
  split; [apply get_or_create_reuse|].
  split; [apply get_or_create_create|].
  split.
  - intros dn st1 ? ? ? Hrun Hkey. by apply (get_or_create_again _ _ _ _ _ _ _ _ _ _ Hrun).
  - intros dn st1 ? ? ? dn' st2 Hkeyed Hrun Hkey Hfresh Hrun'.
    by apply (get_or_create_other_key _ _ _ _ _ _ _ _ _ _ _ _ Hkeyed Hrun Hkey Hfresh Hrun').
Qed.

Lemma get_or_create_scope_identity_witness :
  ∃ dn st',
    _DataManager._get_or_create pipeline_dn_config (Some "other_scenario_id")
      (Some "pipeline_2") "uuid-10" state_after_pipeline_2 = (Ok dn, st') ∧
    repository st' = repository state_after_pipeline_2.
Proof.
  destruct (get_or_create_scope_identity pipeline_dn_config
              (Some "other_scenario_id") (Some "pipeline_2") "uuid-10"
              state_after_pipeline_2)
    as (_ & _ & Hreuse & _).
  destruct Hreuse as (dn & st' & Hrun & _ & _ & Hrepo).
  - exists (Model.mk "DATANODE_test_data_node2_uuid-09" "test_data_node2"
              Scope.PIPELINE (Some "pipeline_2") InMemory
              {["data" := PStr "In memory pipeline"]}).
    split.
    + apply persisted_lookup. exists "DATANODE_test_data_node2_uuid-09".
      vm_compute. reflexivity.
    + split; reflexivity.
  - exists dn, st'. split; [exact Hrun|exact Hrepo].
Defined.

(** C1 as stated fails for a PIPELINE-scoped configuration: with the
    pipeline id kept, a changed scenario id returns the entity already
    persisted. *)
Lemma get_or_create_pipeline_ignores_scenario_id :
  ¬ (∀ cfg scenario_id pipeline_id uuid4 st dn st1
       scenario_id' pipeline_id' uuid4' dn' st2,
       Config.scope cfg = Scope.PIPELINE →
       keyed_by_id (repository st) →
       _DataManager._get_or_create cfg scenario_id pipeline_id uuid4 st
         = (Ok dn, st1) →
       (scenario_id', pipeline_id') ≠ (scenario_id, pipeline_id) →
       generated_data_node_id (Config.id cfg) uuid4' ∉ dom (repository st1) →
       _DataManager._get_or_create cfg scenario_id' pipeline_id' uuid4' st1
         = (Ok dn', st2) →
       DataNode.id dn' ≠ DataNode.id dn).
Proof.
  intros H.
  eapply (H pipeline_dn_config (Some "scenario_id") (Some "pipeline_2") "uuid-09"
            state_with_config _ _ (Some "other_scenario_id") (Some "pipeline_2")
            "uuid-10").
  - reflexivity.
  - intros k m Hk. vm_compute in Hk. discriminate Hk.
  - vm_compute. reflexivity.
  - discriminate.
  - apply not_elem_of_dom. vm_compute. reflexivity.
  - vm_compute. reflexivity.
  - reflexivity.
Qed.

(** * Further properties of the task *)

Lemma last_with_config_id_Some (nodes : list DataNode.t) (k : string)
    (dn : DataNode.t) :
  last_with_config_id k nodes = Some dn →
  DataNode.config_id dn = k ∧ dn ∈ nodes.
Proof.
  unfold last_with_config_id. intros Hlast%last_Some_elem_of.
  by apply list_elem_of_filter in Hlast.
Qed.

Lemma dom_foldl_insert_by_config_id (nodes : list DataNode.t)
    (d : gmap string DataNode.t) :
  dom (foldl (λ d dn, <[DataNode.config_id dn := dn]> d) d nodes)
    = dom d ∪ list_to_set (DataNode.config_id <$> nodes).
Proof.
  revert d. induction nodes as [|x nodes IH]; intros d; simpl.
  - by rewrite ?list_to_set_nil, (right_id_L ∅ (∪)).
  - rewrite IH, dom_insert_L, ?list_to_set_cons.
    rewrite (comm_L (∪) {[DataNode.config_id x]} (dom d)).
    by rewrite (assoc_L (∪)).
Qed.

Lemma dom_dict_by_config_id (nodes : list DataNode.t) :
  dom (dict_by_config_id nodes) = list_to_set (DataNode.config_id <$> nodes).
Proof.
  unfold dict_by_config_id. rewrite dom_foldl_insert_by_config_id.
  by rewrite dom_empty_L, (left_id_L ∅ (∪)).
Qed.

Lemma size_list_to_set_le (l : list string) :
  size (list_to_set (C:=gset string) l) ≤ length l.
Proof.
  induction l as [|x l IH].
  - rewrite list_to_set_nil, size_empty. simpl. lia.
  - rewrite list_to_set_cons, size_union_alt, size_singleton. simpl.
    assert (size (list_to_set (C:=gset string) l ∖ {[x]})
            ≤ size (list_to_set (C:=gset string) l)) as Hsub.
    { apply subseteq_size. apply subseteq_difference_l. done. }
    lia.
Qed.

Lemma last_with_config_id_NoDup (nodes : list DataNode.t) (dn : DataNode.t) :
  NoDup (DataNode.config_id <$> nodes) →
  dn ∈ nodes →
  last_with_config_id (DataNode.config_id dn) nodes = Some dn.
Proof.
  unfold last_with_config_id.
  induction nodes as [|x nodes IH]; intros Hnd Hin.
  - by apply not_elem_of_nil in Hin.
  - rewrite fmap_cons in Hnd. apply NoDup_cons in Hnd as [Hx Hnd].
    rewrite filter_cons. apply elem_of_cons in Hin as [->|Hin].
    + rewrite decide_True by done. rewrite last_cons.
      destruct (last (filter _ nodes)) as [y|] eqn:Hy; [|done].
      apply last_Some_elem_of, list_elem_of_filter in Hy as [Hy Hy_in].
      destruct Hx. rewrite <- Hy. apply list_elem_of_fmap. by exists y.
    + rewrite decide_False; [by apply IH|].
      intros Heq. destruct Hx. rewrite Heq. apply list_elem_of_fmap. by exists dn.
Qed.

(** X1: in a constructed task every entry of the input mapping, of the
    output mapping and of [data_nodes] sits under the [config_id] of its
    data node, and the node comes from the iterables the constructor
    was given. *)
Theorem task_entries_keyed_by_config_id
    config_id function input output id parent_id uuid4 self :
  Task.__init__ config_id function input output id parent_id uuid4 = Ok self →
  ∀ k dn,
    (Task.input self !! k = Some dn →
       DataNode.config_id dn = k ∧ dn ∈ or_empty input) ∧
    (Task.output self !! k = Some dn →
       DataNode.config_id dn = k ∧ dn ∈ or_empty output) ∧
    (Task.data_nodes self !! k = Some dn →
       DataNode.config_id dn = k ∧ dn ∈ or_empty input ++ or_empty output).
Proof.
  intros [_ ->]%task_init_Ok k dn.
  unfold Task.data_nodes, Task.input, Task.output. simpl.
  rewrite dict_unpack2_lookup, !dict_by_config_id_lookup.
  split; [apply last_with_config_id_Some|].
  split; [apply last_with_config_id_Some|].
  destruct (last_with_config_id k (or_empty output)) as [y|] eqn:Hy.
  - intros [= ->]. apply last_with_config_id_Some in Hy as [? ?].
    split; [done|]. apply elem_of_app. by right.
  - intros [? ?]%last_with_config_id_Some.
    split; [done|]. apply elem_of_app. by left.
Qed.

Lemma task_entries_keyed_by_config_id_witness :
  ∃ self,
    Task.__init__ "compute" "print"
      (Some [sample_scenario_node; sample_global_sales_node])
      (Some [sample_pipeline_node]) None None "7f1c" = Ok self ∧
    (Task.data_nodes self !! "report" = Some sample_pipeline_node →
       DataNode.config_id sample_pipeline_node = "report" ∧
       sample_pipeline_node ∈
         [sample_scenario_node; sample_global_sales_node] ++ [sample_pipeline_node]).
Proof.
  eexists. split; [vm_compute; reflexivity|].
  refine (proj2 (proj2 (task_entries_keyed_by_config_id "compute" "print"
    (Some [sample_scenario_node; sample_global_sales_node])
    (Some [sample_pipeline_node]) None None "7f1c" _ _ "report"
    sample_pipeline_node))).
  vm_compute. reflexivity.
Defined.

(** X2: when the data nodes of the input iterable have pairwise
    different [config_id]s, the input mapping of the constructed task
    loses none of them: every node is found under its [config_id] and
    the mapping has as many entries as the iterable has nodes; the same
    holds for the output.  In any case the keys are the [config_id]s
    that occur, so the mapping never has more entries than the
    iterable. *)
Theorem task_distinct_config_ids_lose_nothing
    config_id function input output id parent_id uuid4 self :
  Task.__init__ config_id function input output id parent_id uuid4 = Ok self →
  (dom (Task.input self) = list_to_set (DataNode.config_id <$> or_empty input) ∧
   dom (Task.output self) = list_to_set (DataNode.config_id <$> or_empty output) ∧
   size (Task.input self) ≤ length (or_empty input) ∧
   size (Task.output self) ≤ length (or_empty output)) ∧
  (NoDup (DataNode.config_id <$> or_empty input) →
     size (Task.input self) = length (or_empty input) ∧
     ∀ dn, dn ∈ or_empty input →
           Task.input self !! DataNode.config_id dn = Some dn) ∧
  (NoDup (DataNode.config_id <$> or_empty output) →
     size (Task.output self) = length (or_empty output) ∧
     ∀ dn, dn ∈ or_empty output →
           Task.output self !! DataNode.config_id dn = Some dn).
Proof.
  intros [_ ->]%task_init_Ok. unfold Task.input, Task.output. simpl.
  assert (∀ nodes, size (dict_by_config_id nodes) ≤ length nodes) as Hle.
  { intros nodes. rewrite <- size_dom, dom_dict_by_config_id.
    rewrite <- (length_fmap DataNode.config_id nodes).
    apply size_list_to_set_le. }
  assert (∀ nodes, NoDup (DataNode.config_id <$> nodes) →
            size (dict_by_config_id nodes) = length nodes) as Heq.
  { intros nodes Hnd. rewrite <- size_dom, dom_dict_by_config_id.
    rewrite size_list_to_set by done. apply length_fmap. }
  split; [by rewrite !dom_dict_by_config_id|].
  split; intros Hnd; (split; [by apply Heq|]); intros dn Hdn;
    rewrite dict_by_config_id_lookup; by apply last_with_config_id_NoDup.
Qed.

Lemma task_distinct_config_ids_lose_nothing_witness :
  ∃ self,
    Task.__init__ "compute" "print"
      (Some [sample_scenario_node; sample_pipeline_node]) None None None "7f1c"
      = Ok self ∧
    size (Task.input self) = 2 ∧
    Task.input self !! "report" = Some sample_pipeline_node.
Proof.
  eexists. split; [vm_compute; reflexivity|].
  destruct (task_distinct_config_ids_lose_nothing "compute" "print"
              (Some [sample_scenario_node; sample_pipeline_node]) None None None
              "7f1c" _ eq_refl)
    as (_ & Hin & _).
  destruct Hin as [Hsize Hall].
  - simpl. apply NoDup_cons. split.
    + intros H%list_elem_of_singleton. discriminate H.
    + apply NoDup_singleton.
  - split; [exact Hsize|].
    apply (Hall sample_pipeline_node). simpl.
    apply list_elem_of_further, list_elem_of_here.
Defined.

Lemma no_underscore_app (a b : string) :
  no_underscore (a +:+ "_" +:+ b) = false.
Proof.
  induction a as [|c a IH]; [reflexivity|].
  change (negb (is_underscore c) && no_underscore (a +:+ "_" +:+ b) = false).
  rewrite IH. apply andb_false_r.
Qed.

Lemma append_underscore_inj (a a' b b' : string) :
  no_underscore b = true →
  no_underscore b' = true →
  a +:+ "_" +:+ b = a' +:+ "_" +:+ b' →
  a = a' ∧ b = b'.
Proof.
  intros Hb Hb'. revert a'.
  induction a as [|c a IH]; intros [|c' a'] Heq.
  - injection Heq as Heq. by subst.
  - injection Heq as Hc Heq. change (b = a' +:+ "_" +:+ b') in Heq.
    rewrite Heq, no_underscore_app in Hb. discriminate Hb.
  - injection Heq as Hc Heq. change (a +:+ "_" +:+ b = b') in Heq.
    rewrite <- Heq, no_underscore_app in Hb'. discriminate Hb'.
  - injection Heq as Hc Heq. subst c'. by destruct (IH _ Heq) as [-> ->].
Qed.

(** X3: the ids the constructor builds do not collide: when the texts
    of the two UUIDs have no underscore, two constructions without an id
    give the same task id only for the same [config_id] and the same
    UUID. *)
Theorem task_generated_ids_differ
    config_id function input output parent_id uuid4
    config_id' function' input' output' parent_id' uuid4' self self' :
  no_underscore uuid4 = true →
  no_underscore uuid4' = true →
  Task.__init__ config_id function input output None parent_id uuid4 = Ok self →
  Task.__init__ config_id' function' input' output' None parent_id' uuid4'
    = Ok self' →
  Task.id self = Task.id self' →
  config_id = config_id' ∧ uuid4 = uuid4'.
Proof.
  intros Hu Hu' [_ ->]%task_init_Ok [_ ->]%task_init_Ok. simpl.
  intros [= Hid].
  by apply (append_underscore_inj config_id config_id' uuid4 uuid4').
Qed.

Lemma task_generated_ids_differ_witness :
  ∃ self self',
    Task.__init__ "compute" "print" None None None None "7f1c" = Ok self ∧
    Task.__init__ "compute" "print" None None None None "09ab" = Ok self' ∧
    Task.id self ≠ Task.id self'.
Proof.
  eexists _, _. split; [vm_compute; reflexivity|].
  split; [vm_compute; reflexivity|]. intros Hid.
  destruct (task_generated_ids_differ "compute" "print" None None None "7f1c"
              "compute" "print" None None None "09ab" _ _
              eq_refl eq_refl eq_refl eq_refl Hid) as [_ Hu].
  discriminate Hu.
Defined.

(** X4: for a name that passes identifier validation, attribute
    forwarding succeeds exactly on the keys of [data_nodes]; it returns
    the entry of [data_nodes] unless the name is a key of both
    mappings, and then forwarding gives the input node while
    [data_nodes] holds the output node. *)
Theorem task_getattr_against_data_nodes (self : Task.t) (attribute_name : string) :
  is_identifier attribute_name = true →
  ((∃ dn, Task.__getattr__ self attribute_name = Ok dn) ↔
     is_Some (Task.data_nodes self !! attribute_name)) ∧
  (Task.input self !! attribute_name = None ∨
   Task.output self !! attribute_name = None →
     ∀ dn, Task.__getattr__ self attribute_name = Ok dn ↔
           Task.data_nodes self !! attribute_name = Some dn) ∧
  (∀ dn_in dn_out,
     Task.input self !! attribute_name = Some dn_in →
     Task.output self !! attribute_name = Some dn_out →
     Task.__getattr__ self attribute_name = Ok dn_in ∧
     Task.data_nodes self !! attribute_name = Some dn_out).
Proof.
  intros Hid. unfold Task.__getattr__, _validate_id, Task.data_nodes.
  rewrite Hid, dict_unpack2_lookup. simpl.
  destruct (Task.input self !! attribute_name) as [i|],
           (Task.output self !! attribute_name) as [o|]; simpl.
  - split; [split; eauto|]. split; [intros [?|?]; done|].
    intros ? ? [= <-] [= <-]. done.
  - split; [split; eauto|]. split; [|intros ? ? ? ?; done].
    intros _ dn. split; intros [= ->]; done.
  - split; [split; eauto|]. split; [|intros ? ? ? ?; done].
    intros _ dn. split; intros [= ->]; done.
  - split; [split; [intros [? ?]; done|intros [? ?]; done]|].
    split; [|intros ? ? ? ?; done].
    intros _ dn. split; intros ?; done.
Qed.

Lemma task_getattr_against_data_nodes_witness :
  Task.__getattr__ colliding_task "sales" = Ok sample_global_sales_node ∧
  Task.data_nodes colliding_task !! "sales" = Some sample_scenario_node.
Proof.
  destruct (task_getattr_against_data_nodes colliding_task "sales" eq_refl)
    as (_ & _ & Hboth).
  apply Hboth; vm_compute; reflexivity.
Defined.

(** X5: the data node that attribute forwarding returns on a
    constructed task carries the attribute name as its [config_id] and
    is one of the nodes the constructor was given. *)
Theorem task_getattr_returns_named_node
    config_id function input output id parent_id uuid4 self attribute_name dn :
  Task.__init__ config_id function input output id parent_id uuid4 = Ok self →
  Task.__getattr__ self attribute_name = Ok dn →
  DataNode.config_id dn = attribute_name ∧
  dn ∈ or_empty input ++ or_empty output.
Proof.
  intros [_ ->]%task_init_Ok.
  unfold Task.__getattr__, _validate_id, Task.input, Task.output. simpl.
  destruct (is_identifier attribute_name); simpl; [|discriminate].
  rewrite !dict_by_config_id_lookup.
  destruct (last_with_config_id attribute_name (or_empty input)) as [i|] eqn:Hi.
  - intros [= <-]. apply last_with_config_id_Some in Hi as [? ?].
    split; [done|]. apply elem_of_app. by left.
  - destruct (last_with_config_id attribute_name (or_empty output)) as [o|] eqn:Ho;
      [|discriminate].
    intros [= <-]. apply last_with_config_id_Some in Ho as [? ?].
    split; [done|]. apply elem_of_app. by right.
Qed.

Lemma task_getattr_returns_named_node_witness :
  DataNode.config_id sample_pipeline_node = "report" ∧
  sample_pipeline_node ∈ [sample_scenario_node] ++ [sample_pipeline_node].
Proof.
  apply (task_getattr_returns_named_node "compute" "print"
           (Some [sample_scenario_node]) (Some [sample_pipeline_node])
           None None "7f1c" _ "report" sample_pipeline_node eq_refl).
  vm_compute. reflexivity.
Defined.

(** X6: the keys of [data_nodes] are the keys of the input mapping
    together with the keys of the output mapping; it has at most as
    many entries as the two mappings together, and exactly as many when
    and only when they share no key. *)
Theorem task_data_nodes_keys (self : Task.t) :
  dom (Task.data_nodes self) = dom (Task.input self) ∪ dom (Task.output self) ∧
  size (Task.data_nodes self) ≤ size (Task.input self) + size (Task.output self) ∧
  (size (Task.data_nodes self) = size (Task.input self) + size (Task.output self) ↔
     dom (Task.input self) ## dom (Task.output self)).
Proof.
  unfold Task.data_nodes. rewrite dict_unpack2_union.
  rewrite <- !size_dom, dom_union_L.
  set (I := dom (Task.input self)). set (O := dom (Task.output self)).
  assert (size (O ∪ I) = size O + size (I ∖ O)) as Hsize by apply size_union_alt.
  assert (I ∖ O ⊆ I) as Hsub by apply subseteq_difference_l, reflexivity.
  pose proof (subseteq_size _ _ Hsub) as Hle.
  split; [apply (comm_L (∪))|]. split; [lia|]. split.
  - intros Heq. assert (size I ≤ size (I ∖ O)) as Hge by lia.
    pose proof (set_subseteq_size_eq _ _ Hsub Hge) as Hdiff.
    intros x Hx_in Hx_out. rewrite <- Hdiff in Hx_in.
    apply elem_of_difference in Hx_in as [_ Hx]. done.
  - intros Hdisj. rewrite Hsize, difference_disjoint_L by done. lia.
Qed.

Lemma task_data_nodes_keys_witness :
  size (Task.data_nodes sample_task) = 2.
Proof.
  destruct (task_data_nodes_keys sample_task) as (_ & _ & Hiff).
  rewrite (proj2 Hiff); [reflexivity|].
  intros x Hx_in Hx_out.
  apply elem_of_dom in Hx_in as [dn Hin], Hx_out as [dn' Hout].
  destruct (decide (x = "sales")) as [->|Hne].
  - vm_compute in Hout. discriminate Hout.
  - unfold sample_task, Task.input, dict_by_config_id in Hin. simpl in Hin.
    rewrite lookup_insert_ne in Hin by done. by rewrite lookup_empty in Hin.
Defined.

Section task_scope.

Lemma scope_le_antisym (a b : Scope.t) : Scope.le a b → Scope.le b a → a = b.
Proof.
  unfold Scope.le. destruct a, b; simpl; intros; (done || lia).
Qed.

Lemma scope_le_trans (a b c : Scope.t) : Scope.le a b → Scope.le b c → Scope.le a c.
Proof. unfold Scope.le. lia. Qed.

Lemma attached_scope_values (self : Task.t) (s : Scope.t) :
  attached_scope self s ↔
  s ∈ DataNode.scope <$>
        values (Task._Task__input self) ++ values (Task._Task__output self).
Proof.
  unfold attached_scope. rewrite list_elem_of_fmap. split.
  - intros [dn [Hdn <-]]. exists dn. split; [done|]. by apply attached_values.
  - intros [dn [-> Hdn]]. exists dn. split; [|done]. by apply attached_values.
Qed.

(** Either the task has no data node and its scope is GLOBAL, or its
    scope is one of the attached scopes and is below all of them. *)
Lemma task_scope_cases (self : Task.t) :
  ((∀ s, ¬ attached_scope self s) ∧ Task.scope self = Scope.GLOBAL) ∨
  (attached_scope self (Task.scope self) ∧
   ∀ s, attached_scope self s → Scope.le (Task.scope self) s).
Proof.
  unfold Task.scope.
  destruct (DataNode.scope <$>
              values (Task._Task__input self) ++ values (Task._Task__output self))
    as [|s rest] eqn:Hs.
  - left. split; [|done]. intros s Hin%attached_scope_values.
    rewrite Hs in Hin. by apply not_elem_of_nil in Hin.
  - right. split.
    + apply attached_scope_values. rewrite Hs. apply min_from_elem.
    + intros s' Hin%attached_scope_values. rewrite Hs in Hin.
      by apply min_from_lower_bound.
Qed.

Lemma attached_exchanged (self : Task.t) (dn : DataNode.t) :
  attached (exchanged self) dn ↔ attached self dn.
Proof.
  unfold attached, exchanged, Task.input, Task.output. simpl.
  split; intros [k [Hk|Hk]]; exists k; auto.
Qed.

End task_scope.

(** X7: the scope of a task depends only on which scopes its attached
    data nodes have: two tasks whose data nodes have the same scopes
    have the same scope, whether the nodes are inputs or outputs and
    however many there are. *)
Theorem task_scope_determined_by_attached_scopes (self other : Task.t) :
  (∀ s, attached_scope self s ↔ attached_scope other s) →
  Task.scope self = Task.scope other.
Proof.
  intros Hsame.
  destruct (task_scope_cases self) as [[Hnone ->]|[Hin Hlow]],
           (task_scope_cases other) as [[Hnone' ->]|[Hin' Hlow']].
  - done.
  - by destruct (Hnone (Task.scope other)); apply Hsame.
  - by destruct (Hnone' (Task.scope self)); apply Hsame.
  - apply scope_le_antisym.
    + apply Hlow, Hsame, Hin'.
    + apply Hlow', Hsame, Hin.
Qed.

Lemma task_scope_determined_by_attached_scopes_witness :
  Task.scope (exchanged sample_task) = Task.scope sample_task.
Proof.
  apply (task_scope_determined_by_attached_scopes (exchanged sample_task)
           sample_task).
  intros s. unfold attached_scope.
  split; intros [dn [Hdn Hs]]; exists dn; (split; [|exact Hs]);
    by apply attached_exchanged.
Defined.

(** X8: giving a task that has data nodes further data nodes never
    raises its scope: when every data node of a task with at least one
    data node is also attached to another task, the scope of the other
    task is below or equal to the scope of the first. *)
Theorem task_scope_antitone (self other : Task.t) :
  (∃ dn, attached self dn) →
  (∀ dn, attached self dn → attached other dn) →
  Scope.le (Task.scope other) (Task.scope self).
Proof.
  intros [dn0 Hdn0] Hsub.
  destruct (task_scope_cases self) as [[Hnone _]|[[dn [Hdn Hs]] _]].
  { destruct (Hnone (DataNode.scope dn0)). by exists dn0. }
  destruct (task_scope_cases other) as [[Hnone' _]|[_ Hlow']].
  { destruct (Hnone' (DataNode.scope dn)). exists dn. split; [|done]. by apply Hsub. }
  apply Hlow'. exists dn. split; [by apply Hsub|done].
Qed.

Lemma task_scope_antitone_witness :
  Scope.le (Task.scope sample_task)
    (Task.scope (Task.mk "compute" "TASK_compute_0" None ∅
                   (dict_by_config_id [sample_pipeline_node]) "print")).
Proof.
  apply task_scope_antitone.
  - exists sample_pipeline_node, "report". right. vm_compute. reflexivity.
  - intros dn [k [Hk|Hk]].
    + unfold Task.input in Hk. simpl in Hk. by rewrite lookup_empty in Hk.
    + exists k. right. exact Hk.
Defined.

(** X9: the scope of a task is below or equal to the scope of every
    entry of [data_nodes]; when the input and the output mapping share
    no key and the task has a data node, the scope is the scope of an
    entry of [data_nodes]. *)
Theorem task_scope_against_data_nodes (self : Task.t) :
  (∀ k dn, Task.data_nodes self !! k = Some dn →
           Scope.le (Task.scope self) (DataNode.scope dn)) ∧
  (dom (Task.input self) ## dom (Task.output self) →
   Task.data_nodes self ≠ ∅ →
   ∃ k dn, Task.data_nodes self !! k = Some dn ∧
           Task.scope self = DataNode.scope dn).
Proof.
  split.
  - intros k dn Hk.
    assert (attached self dn) as Hdn.
    { unfold Task.data_nodes in Hk. rewrite dict_unpack2_lookup in Hk.
      exists k. destruct (Task.output self !! k) as [o|] eqn:Ho.
      - right. by rewrite <- Hk.
      - by left. }
    destruct (task_scope_cases self) as [[Hnone _]|[_ Hlow]].
    + destruct (Hnone (DataNode.scope dn)). by exists dn.
    + apply Hlow. by exists dn.
  - intros Hdisj Hne.
    destruct (task_scope_cases self) as [[Hnone _]|[[dn [[k Hk] Hs]] _]].
    + destruct Hne. apply map_eq. intros k. rewrite lookup_empty.
      destruct (Task.data_nodes self !! k) as [dn|] eqn:Hk; [|done].
      unfold Task.data_nodes in Hk. rewrite dict_unpack2_lookup in Hk.
      destruct (Hnone (DataNode.scope dn)). exists dn. split; [|done].
      exists k. destruct (Task.output self !! k) as [o|] eqn:Ho.
      * right. by rewrite <- Hk.
      * by left.
    + exists k, dn. split; [|done].
      unfold Task.data_nodes. rewrite dict_unpack2_lookup.
      destruct Hk as [Hk|Hk]; [|by rewrite Hk].
      destruct (Task.output self !! k) as [o|] eqn:Ho; [|done].
      destruct (Hdisj k); apply elem_of_dom; eauto.
Qed.

Lemma task_scope_against_data_nodes_witness :
  Scope.le (Task.scope sample_task) (DataNode.scope sample_pipeline_node).
Proof.
  apply (proj1 (task_scope_against_data_nodes sample_task) "report").
  vm_compute. reflexivity.
Defined.

(** * Further properties of the manager *)

Section manager_frames.

Lemma fresh_not_in_heap (st : State) : fresh (dom (heap st)) ∉ dom (heap st).
Proof. apply is_fresh. Qed.

(** What [from_models] returns and leaves. *)
Lemma run_from_models (ms : list Model.t) (st : State) :
  ∃ dns st',
    _DataManager.from_models ms st = (Ok dns, st') ∧
    repository st' = repository st ∧
    (∀ l, l ∈ dom (heap st) → heap st' !! l = heap st !! l) ∧
    dom (heap st) ⊆ dom (heap st') ∧
    (λ dn, model_of st' dn) <$> dns = ms ∧
    (∀ dn, dn ∈ dns → DataNode.properties dn ∉ dom (heap st)) ∧
    NoDup (DataNode.properties <$> dns).
Proof.
  revert st. induction ms as [|m ms IH]; intros st.
  - exists [], st. repeat split; try done.
    + intros dn Hdn. by apply not_elem_of_nil in Hdn.
    + apply NoDup_nil_2.
  - set (l := fresh (dom (heap st))).
    set (st1 := mkState (<[l := Model.properties m]> (heap st)) (repository st)).
    destruct (IH st1) as (dns & st' & Hrun & Hrepo & Hkeep & Hdom & Hmodels & Hnew & Hnd).
    assert (l ∉ dom (heap st)) as Hl by apply is_fresh.
    assert (l ∈ dom (heap st1)) as Hl1.
    { unfold st1. simpl. rewrite dom_insert_L. apply elem_of_union_l.
      by apply elem_of_singleton. }
    exists (DataNode.mk (Model.id m) (Model.config_id m) (Model.scope m)
              (Model.parent_id m) (Model.storage_type m) l :: dns), st'.
    split.
    { simpl. unfold mbind, M_bind at 1. rewrite run_from_model. fold l. fold st1.
      unfold mbind, M_bind. rewrite Hrun. reflexivity. }
    split; [done|].
    assert (∀ l', l' ∈ dom (heap st) → l' ∈ dom (heap st1)) as Hsub.
    { intros l' Hl'. unfold st1. simpl. rewrite dom_insert_L.
      by apply elem_of_union_r. }
    split.
    { intros l' Hl'. rewrite Hkeep by auto. unfold st1. simpl.
      apply lookup_insert_ne. intros ->. done. }
    split; [intros l' Hl'; auto|].
    split.
    { rewrite fmap_cons, Hmodels. f_equal. unfold model_of. simpl.
      rewrite (Hkeep l Hl1). unfold st1. simpl. rewrite lookup_insert_eq. simpl.
      apply model_eta. }
    split.
    { intros dn [->|Hdn]%elem_of_cons; [done|].
      intros Hin. by apply (Hnew dn Hdn), Hsub. }
    rewrite fmap_cons. apply NoDup_cons. split; [|done].
    intros [dn [Heq Hdn]]%list_elem_of_fmap. simpl in Heq.
    apply (Hnew dn Hdn). by rewrite <- Heq.
Qed.

Lemma run_get_all (st : State) :
  _DataManager._get_all st
    = _DataManager.from_models (Repository.get_all (repository st)) st.
Proof. reflexivity. Qed.

Lemma length_get_all (store : gmap string Model.t) :
  length (Repository.get_all store) = size store.
Proof. unfold Repository.get_all. by rewrite length_fmap, length_map_to_list. Qed.

Lemma run_len_get_all (st : State) :
  result_of len_get_all st = Ok (size (repository st)).
Proof.
  unfold result_of, len_get_all, mbind, M_bind. rewrite run_get_all.
  destruct (run_from_models (Repository.get_all (repository st)) st)
    as (dns & st' & -> & _ & _ & _ & Hmodels & _). simpl.
  by rewrite <- length_get_all, <- Hmodels, length_fmap.
Qed.

End manager_frames.

(** X10: [get_all] returns one entity per persisted record, in the
    order of the records and with their fields and properties; each
    entity has a property mapping of its own, new in the heap; the
    repository and the mappings that existed are left as they were. *)
Theorem get_all_one_entity_per_record (st : State) :
  ∃ dns st',
    _DataManager._get_all st = (Ok dns, st') ∧
    (λ dn, model_of st' dn) <$> dns = Repository.get_all (repository st) ∧
    length dns = size (repository st) ∧
    NoDup (DataNode.properties <$> dns) ∧
    (∀ dn, dn ∈ dns → DataNode.properties dn ∉ dom (heap st)) ∧
    repository st' = repository st ∧
    (∀ l, l ∈ dom (heap st) → heap st' !! l = heap st !! l).
Proof.
  rewrite run_get_all.
  destruct (run_from_models (Repository.get_all (repository st)) st)
    as (dns & st' & Hrun & Hrepo & Hkeep & _ & Hmodels & Hnew & Hnd).
  exists dns, st'. repeat split; try done.
  by rewrite <- length_get_all, <- Hmodels, length_fmap.
Qed.

Section manager_steps.

Lemma run_set (dn : DataNode.t) (st : State) :
  _DataManager._set dn st =
    (Ok (), mkState (heap st)
              (<[DataNode.id dn := model_of st dn]> (repository st))).
Proof. reflexivity. Qed.

Lemma run_delete (entity : string) (st : State) :
  _DataManager._delete entity st =
    (Ok (), mkState (heap st) (delete entity (repository st))).
Proof. reflexivity. Qed.

Lemma run_delete_all (st : State) :
  _DataManager._delete_all st = (Ok (), mkState (heap st) ∅).
Proof. reflexivity. Qed.

Lemma state_eta (st : State) : mkState (heap st) (repository st) = st.
Proof. by destruct st. Qed.

End manager_steps.

(** X11: after [set], [get] by the id of the entity, or by a reference
    to it, returns an entity with the same fields and the same
    properties, on a property mapping of its own, and persists
    nothing. *)
Theorem set_then_get_round_trip
    (dn : DataNode.t) (x : string + DataNode.t) (st : State) :
  _DataManager.entity_id x = DataNode.id dn →
  ∃ e st2,
    _DataManager._get x (state_after (_DataManager._set dn) st)
      = (Ok (Some e), st2) ∧
    model_of st2 e = model_of st dn ∧
    (DataNode.properties e ∉ dom (heap st)) ∧
    repository st2 = repository (state_after (_DataManager._set dn) st).
Proof.
  intros Hx. unfold state_after. rewrite run_set, run_get, Hx. simpl.
  rewrite lookup_insert_eq. eexists _, _. split; [reflexivity|].
  unfold model_of. simpl. rewrite lookup_insert_eq. simpl.
  split; [done|]. split; [apply is_fresh|done].
Qed.

Lemma set_then_get_round_trip_witness :
  ∃ e st2,
    _DataManager._get (inr sample_scenario_node)
        (state_after (_DataManager._set sample_scenario_node) empty_state)
      = (Ok (Some e), st2) ∧
    model_of st2 e = model_of empty_state sample_scenario_node.
Proof.
  destruct (set_then_get_round_trip sample_scenario_node
              (inr sample_scenario_node) empty_state eq_refl)
    as (e & st2 & Hget & Hmodel & _).
  exists e, st2. split; [exact Hget|exact Hmodel].
Defined.

(** X12: [set] is an upsert: it leaves the records of the other ids and
    the heap as they were; it adds one entity when the id is new and
    keeps the number of entities when the id is known; a second [set]
    of the same entity changes nothing. *)
Theorem set_is_an_upsert (dn : DataNode.t) (st : State) :
  let st1 := state_after (_DataManager._set dn) st in
  (∀ k, k ≠ DataNode.id dn → repository st1 !! k = repository st !! k) ∧
  heap st1 = heap st ∧
  (DataNode.id dn ∈ dom (repository st) →
     result_of len_get_all st1 = result_of len_get_all st) ∧
  (DataNode.id dn ∉ dom (repository st) →
     result_of len_get_all st1 = Ok (S (size (repository st)))) ∧
  state_after (_DataManager._set dn) st1 = st1.
Proof.
  unfold state_after. rewrite !run_set. simpl.
  split; [intros k Hk; by apply lookup_insert_ne|]. split; [done|].
  rewrite !run_len_get_all. simpl. split; [|split].
  - intros [m Hm]%elem_of_dom. f_equal. by apply map_size_insert_Some.
  - intros Hm%not_elem_of_dom. f_equal. by apply map_size_insert_None.
  - unfold model_of. simpl. by rewrite insert_insert_eq.
Qed.

Lemma set_is_an_upsert_witness :
  result_of len_get_all
    (state_after (_DataManager._set sample_scenario_node) empty_state) = Ok 1.
Proof.
  destruct (set_is_an_upsert sample_scenario_node empty_state)
    as (_ & _ & _ & Hnew & _).
  apply Hnew. apply not_elem_of_dom. reflexivity.
Defined.

(** X13: [delete] removes the record of the given id and no other:
    [get] of that id is [None] afterwards, the records of the other ids
    and the heap are as they were, the number of entities goes down by
    one when the id was known, and nothing changes when it was not. *)
Theorem delete_removes_exactly_that_id (entity : string) (st : State) :
  let st1 := state_after (_DataManager._delete entity) st in
  _DataManager._get (inl entity) st1 = (Ok None, st1) ∧
  (∀ k, k ≠ entity → repository st1 !! k = repository st !! k) ∧
  heap st1 = heap st ∧
  (entity ∈ dom (repository st) →
     ∃ n, result_of len_get_all st1 = Ok n ∧
          result_of len_get_all st = Ok (S n)) ∧
  (entity ∉ dom (repository st) → st1 = st).
Proof.
  unfold state_after. rewrite run_delete. simpl.
  split; [by rewrite run_get; simpl; rewrite lookup_delete_eq|].
  split; [intros k Hk; by apply lookup_delete_ne|]. split; [done|].
  rewrite !run_len_get_all. simpl. split.
  - intros [m Hm]%elem_of_dom. exists (size (delete entity (repository st))).
    split; [done|]. f_equal.
    rewrite <- (insert_delete_id (repository st) entity m Hm) at 1.
    apply map_size_insert_None, lookup_delete_eq.
  - intros Hm%not_elem_of_dom. rewrite delete_id by done. apply state_eta.
Qed.

Lemma delete_removes_exactly_that_id_witness :
  state_after (_DataManager._delete "id_1") empty_state = empty_state.
Proof.
  apply (delete_removes_exactly_that_id "id_1" empty_state).
  apply not_elem_of_dom. reflexivity.
Defined.

Section manager_counts.

Lemma length_filter_fmap {A B : Type} (f : A → B) (P : A → Prop) (Q : B → Prop)
    `{!∀ a, Decision (P a), !∀ b, Decision (Q b)} (l : list A) :
  (∀ a, P a ↔ Q (f a)) →
  length (filter P l) = length (filter Q (f <$> l)).
Proof.
  intros HPQ. induction l as [|a l IH]; [done|].
  rewrite fmap_cons, !filter_cons.
  destruct (decide (P a)) as [Ha|Ha], (decide (Q (f a))) as [Hb|Hb]; simpl.
  - by rewrite IH.
  - by destruct Hb; apply HPQ.
  - by destruct Ha; apply HPQ.
  - done.
Qed.

Lemma run_len_get_all_with_config_id (config_id : string) (st : State) :
  result_of (len_get_all_with_config_id config_id) st
    = Ok (length (filter (λ m, Model.config_id m = config_id)
                    (Repository.get_all (repository st)))).
Proof.
  unfold result_of, len_get_all_with_config_id, mbind, M_bind.
  rewrite run_get_all.
  destruct (run_from_models (Repository.get_all (repository st)) st)
    as (dns & st' & -> & _ & _ & _ & Hmodels & _). simpl.
  rewrite <- Hmodels. f_equal.
  by apply (length_filter_fmap (λ dn, model_of st' dn)).
Qed.

Lemma get_all_insert_fresh (store : gmap string Model.t) (k : string) (m : Model.t) :
  store !! k = None →
  Repository.get_all (<[k := m]> store) ≡ₚ m :: Repository.get_all store.
Proof.
  intros Hk. unfold Repository.get_all.
  by rewrite (map_to_list_insert store k m Hk).
Qed.

Lemma length_filter_get_all_insert (P : Model.t → Prop) `{!∀ m, Decision (P m)}
    (store : gmap string Model.t) (k : string) (m : Model.t) :
  store !! k = None →
  length (filter P (Repository.get_all (<[k := m]> store)))
    = length (filter P (m :: Repository.get_all store)).
Proof.
  intros Hk. apply Permutation_length, filter_Permutation.
  by apply get_all_insert_fresh.
Qed.

End manager_counts.

(** X14: [create_and_set] with a recognised tag and an id that is not
    in use adds exactly one entity: the number of entities goes up by
    one, the number of entities of the configuration's [config_id] goes
    up by one, and the number of entities of any other [config_id]
    stays. *)
Theorem create_and_set_adds_one_entity
    (cfg : Config.t) (parent_id : option string) (uuid4 : string)
    (st : State) (variant : StorageType) :
  _DataManager.DATA_NODE_CLASS_MAP (Config.storage_type cfg) = Some variant →
  generated_data_node_id (Config.id cfg) uuid4 ∉ dom (repository st) →
  let st1 := state_after (_DataManager._create_and_set cfg parent_id uuid4) st in
  (∃ n, result_of len_get_all st = Ok n ∧
        result_of len_get_all st1 = Ok (S n)) ∧
  (∃ n, result_of (len_get_all_with_config_id (Config.id cfg)) st = Ok n ∧
        result_of (len_get_all_with_config_id (Config.id cfg)) st1 = Ok (S n)) ∧
  (∀ config_id, config_id ≠ Config.id cfg →
     result_of (len_get_all_with_config_id config_id) st1
       = result_of (len_get_all_with_config_id config_id) st).
Proof.
  intros Hv Hfresh%not_elem_of_dom. unfold state_after.
  rewrite (run_create_and_set_known _ _ _ _ _ Hv). simpl.
  rewrite !run_len_get_all, !run_len_get_all_with_config_id.
  cbn [repository]. split; [|split].
  - eexists. split; [reflexivity|]. f_equal. by apply map_size_insert_None.
  - eexists. split; [reflexivity|]. f_equal.
    etrans; [by apply length_filter_get_all_insert|].
    rewrite filter_cons. by rewrite decide_True.
  - intros config_id Hne. rewrite !run_len_get_all_with_config_id.
    cbn [repository]. f_equal.
    etrans; [by apply length_filter_get_all_insert|].
    rewrite filter_cons. rewrite decide_False; [done|]. simpl. by apply not_eq_sym.
Qed.

Lemma create_and_set_adds_one_entity_witness :
  result_of len_get_all
    (state_after (_DataManager._create_and_set csv_dn_config None "uuid-01")
       state_with_csv_config) = Ok 1.
Proof.
  destruct (create_and_set_adds_one_entity csv_dn_config None "uuid-01"
              state_with_csv_config Csv) as [[n [Hn Hn1]] _].
  - reflexivity.
  - apply not_elem_of_dom. reflexivity.
  - rewrite Hn1. f_equal. f_equal.
    vm_compute in Hn. by injection Hn as <-.
Defined.

Example test_get_all_passes : result_of test_get_all empty_state = Ok true.
Proof. vm_compute. reflexivity. Qed.

Example test_set_passes : result_of test_set empty_state = Ok true.
Proof. vm_compute. reflexivity. Qed.

Section manager_invariants.

Lemma keyed_by_id_insert (store : gmap string Model.t) (m : Model.t) :
  keyed_by_id store → keyed_by_id (<[Model.id m := m]> store).
Proof.
  intros Hkeyed k m' [[<- <-]|[_ Hk]]%lookup_insert_Some; [done|].
  by apply Hkeyed.
Qed.

Lemma keyed_by_id_delete (store : gmap string Model.t) (entity : string) :
  keyed_by_id store → keyed_by_id (delete entity store).
Proof.
  intros Hkeyed k m [_ Hk]%lookup_delete_Some. by apply Hkeyed.
Qed.

(** What [create_and_set] leaves, whether it returns or raises. *)
Lemma state_after_create_and_set cfg parent_id uuid4 st :
  state_after (_DataManager._create_and_set cfg parent_id uuid4) st = st ∨
  ∃ m, Model.id m = generated_data_node_id (Config.id cfg) uuid4 ∧
       state_after (_DataManager._create_and_set cfg parent_id uuid4) st
         = mkState (<[fresh (dom (heap st)) := Model.properties m]> (heap st))
             (<[Model.id m := m]> (repository st)).
Proof.
  unfold state_after.
  destruct (_DataManager.DATA_NODE_CLASS_MAP (Config.storage_type cfg))
    as [variant|] eqn:Hv.
  - right. rewrite (run_create_and_set_known _ _ _ _ _ Hv). simpl.
    by eexists (Model.mk _ _ _ _ _ _).
  - left. by rewrite (run_create_and_set_unknown _ _ _ _ Hv).
Qed.

(** What [get_or_create] leaves, whether it returns or raises: the
    state as it was, one new property mapping, or the state of
    [create_and_set]. *)
Lemma state_after_get_or_create cfg scenario_id pipeline_id uuid4 st :
  (∃ props,
     state_after (_DataManager._get_or_create cfg scenario_id pipeline_id uuid4) st
       = mkState (<[fresh (dom (heap st)) := props]> (heap st)) (repository st)) ∨
  (∃ parent_id,
     state_after (_DataManager._get_or_create cfg scenario_id pipeline_id uuid4) st
       = state_after (_DataManager._create_and_set cfg parent_id uuid4) st).
Proof.
  unfold state_after. rewrite run_get_or_create. simpl.
  destruct (filter _ _) as [|m rest].
  - right. by eexists.
  - left. rewrite run_from_model. by eexists.
Qed.

Lemma state_after_get (x : string + DataNode.t) (st : State) :
  state_after (_DataManager._get x) st = st ∨
  ∃ props,
    state_after (_DataManager._get x) st
      = mkState (<[fresh (dom (heap st)) := props]> (heap st)) (repository st).
Proof.
  unfold state_after. rewrite run_get.
  destruct (repository st !! _DataManager.entity_id x); [right|left]; [|done].
  by eexists.
Qed.

Lemma lookup_insert_fresh_heap (st : State) (props : gmap string PyVal) (l : loc) :
  l ∈ dom (heap st) →
  <[fresh (dom (heap st)) := props]> (heap st) !! l = heap st !! l.
Proof.
  intros Hl. apply lookup_insert_ne. intros Heq.
  apply (is_fresh (dom (heap st))). by rewrite Heq.
Qed.

End manager_invariants.

(** X15: every operation of the manager keeps each record of the
    repository under the id of the record; in such a repository the
    entity that [get] returns carries the id it was asked for. *)
Theorem manager_keeps_records_under_their_ids (st : State) :
  keyed_by_id (repository st) →
  (∀ dn, keyed_by_id (repository (state_after (_DataManager._set dn) st))) ∧
  (∀ entity,
     keyed_by_id (repository (state_after (_DataManager._delete entity) st))) ∧
  keyed_by_id (repository (state_after _DataManager._delete_all st)) ∧
  (∀ cfg parent_id uuid4,
     keyed_by_id
       (repository
          (state_after (_DataManager._create_and_set cfg parent_id uuid4) st))) ∧
  (∀ cfg scenario_id pipeline_id uuid4,
     keyed_by_id
       (repository
          (state_after
             (_DataManager._get_or_create cfg scenario_id pipeline_id uuid4) st))) ∧
  (∀ x, keyed_by_id (repository (state_after (_DataManager._get x) st))) ∧
  keyed_by_id (repository (state_after _DataManager._get_all st)) ∧
  (∀ x e st',
     _DataManager._get x st = (Ok (Some e), st') →
     DataNode.id e = _DataManager.entity_id x).
Proof.
  intros Hkeyed.
  assert (∀ cfg parent_id uuid4,
            keyed_by_id
              (repository
                 (state_after (_DataManager._create_and_set cfg parent_id uuid4) st)))
    as Hcreate.
  { intros cfg parent_id uuid4.
    destruct (state_after_create_and_set cfg parent_id uuid4 st)
      as [->|[m [_ ->]]]; [done|].
    by apply keyed_by_id_insert. }
  split; [intros dn; by apply (keyed_by_id_insert _ (model_of st dn))|].
  split; [intros entity; by apply keyed_by_id_delete|].
  split.
  { unfold state_after. rewrite run_delete_all. simpl.
    intros k m Hk. by rewrite lookup_empty in Hk. }
  split; [done|].
  split.
  { intros cfg scenario_id pipeline_id uuid4.
    destruct (state_after_get_or_create cfg scenario_id pipeline_id uuid4 st)
      as [[props ->]|[parent_id ->]]; [done|apply Hcreate]. }
  split.
  { intros x. by destruct (state_after_get x st) as [->|[props ->]]. }
  split.
  { unfold state_after. rewrite run_get_all.
    destruct (run_from_models (Repository.get_all (repository st)) st)
      as (dns & st' & -> & Hrepo & _). simpl. by rewrite Hrepo. }
  intros x e st'. rewrite run_get.
  destruct (repository st !! _DataManager.entity_id x) as [m|] eqn:Hm;
    [|discriminate].
  intros [= <- _]. simpl. by apply Hkeyed.
Qed.

Lemma manager_keeps_records_under_their_ids_witness :
  keyed_by_id
    (repository
       (state_after
          (_DataManager._get_or_create pipeline_dn_config (Some "scenario_id")
             (Some "pipeline_2") "uuid-09")
          state_with_config)).
Proof.
  apply (manager_keeps_records_under_their_ids state_with_config).
  intros k m Hk. vm_compute in Hk. discriminate Hk.
Defined.

(** X16: no operation of the manager writes to a property mapping that
    exists: after [set], [delete], [delete_all], [create_and_set],
    [get_or_create], [get] and [get_all] every mapping of the heap has
    the contents it had. *)
Theorem manager_leaves_existing_mappings (st : State) (l : loc) :
  l ∈ dom (heap st) →
  (∀ dn, heap (state_after (_DataManager._set dn) st) !! l = heap st !! l) ∧
  (∀ entity,
     heap (state_after (_DataManager._delete entity) st) !! l = heap st !! l) ∧
  heap (state_after _DataManager._delete_all st) !! l = heap st !! l ∧
  (∀ cfg parent_id uuid4,
     heap (state_after (_DataManager._create_and_set cfg parent_id uuid4) st) !! l
       = heap st !! l) ∧
  (∀ cfg scenario_id pipeline_id uuid4,
     heap (state_after
             (_DataManager._get_or_create cfg scenario_id pipeline_id uuid4) st) !! l
       = heap st !! l) ∧
  (∀ x, heap (state_after (_DataManager._get x) st) !! l = heap st !! l) ∧
  heap (state_after _DataManager._get_all st) !! l = heap st !! l.
Proof.
  intros Hl.
  assert (∀ cfg parent_id uuid4,
            heap (state_after (_DataManager._create_and_set cfg parent_id uuid4) st)
              !! l = heap st !! l) as Hcreate.
  { intros cfg parent_id uuid4.
    destruct (state_after_create_and_set cfg parent_id uuid4 st)
      as [->|[m [_ ->]]]; [done|].
    by apply lookup_insert_fresh_heap. }
  split; [done|]. split; [done|]. split; [done|]. split; [done|].
  split.
  { intros cfg scenario_id pipeline_id uuid4.
    destruct (state_after_get_or_create cfg scenario_id pipeline_id uuid4 st)
      as [[props ->]|[parent_id ->]]; [|apply Hcreate].
    by apply lookup_insert_fresh_heap. }
  split.
  { intros x. destruct (state_after_get x st) as [->|[props ->]]; [done|].
    by apply lookup_insert_fresh_heap. }
  unfold state_after. rewrite run_get_all.
  destruct (run_from_models (Repository.get_all (repository st)) st)
    as (dns & st' & -> & _ & Hkeep & _). by apply Hkeep.
Qed.

Lemma manager_leaves_existing_mappings_witness :
  heap (state_after (_DataManager._create_and_set csv_dn_config None "uuid-01")
          state_with_csv_config) !! 1%positive
    = heap state_with_csv_config !! 1%positive.
Proof.
  apply (manager_leaves_existing_mappings state_with_csv_config 1%positive).
  apply elem_of_dom. vm_compute. eexists. reflexivity.
Defined.

(** X17: [get] of the id of the entity that [create_and_set] returned
    gives an entity with the same id, the [config_id] and the scope of
    the configuration, the parent id of the call and the variant of the
    tag; its properties are those of the created entity, which are
    those of the configuration, on a mapping of its own. *)
Theorem create_then_get_round_trip
    (cfg : Config.t) (parent_id : option string) (uuid4 : string)
    (st : State) (variant : StorageType) :
  _DataManager.DATA_NODE_CLASS_MAP (Config.storage_type cfg) = Some variant →
  ∃ dn st1 e st2,
    _DataManager._create_and_set cfg parent_id uuid4 st = (Ok dn, st1) ∧
    _DataManager._get (inl (DataNode.id dn)) st1 = (Ok (Some e), st2) ∧
    DataNode.id e = DataNode.id dn ∧
    DataNode.config_id e = Config.id cfg ∧
    DataNode.scope e = Config.scope cfg ∧
    DataNode.parent_id e = parent_id ∧
    DataNode.storage_type e = variant ∧
    heap st2 !! DataNode.properties e = heap st2 !! DataNode.properties dn ∧
    heap st2 !! DataNode.properties e
      = Some (default ∅ (heap st !! Config.properties cfg)) ∧
    DataNode.properties e ≠ DataNode.properties dn.
Proof.
  intros Hv. eexists _, _, _, _.
  split; [by apply run_create_and_set_known|].
  split; [rewrite run_get; simpl; rewrite lookup_insert_eq; reflexivity|].
  simpl. repeat (split; [reflexivity|]).
  set (h1 := <[fresh (dom (heap st)) := default ∅ (heap st !! Config.properties cfg)]>
               (heap st)).
  assert (fresh (dom h1) ≠ fresh (dom (heap st))) as Hne.
  { intros Heq. apply (is_fresh (dom h1)). rewrite Heq. unfold h1.
    rewrite dom_insert_L. apply elem_of_union_l. by apply elem_of_singleton. }
  split; [|split; [|done]].
  - rewrite lookup_insert_eq, lookup_insert_ne by done. unfold h1.
    by rewrite lookup_insert_eq.
  - by rewrite lookup_insert_eq.
Qed.

Lemma create_then_get_round_trip_witness :
  ∃ dn st1 e st2,
    _DataManager._create_and_set csv_dn_config None "uuid-01" state_with_csv_config
      = (Ok dn, st1) ∧
    _DataManager._get (inl (DataNode.id dn)) st1 = (Ok (Some e), st2) ∧
    DataNode.config_id e = "foo".
Proof.
  destruct (create_then_get_round_trip csv_dn_config None "uuid-01"
              state_with_csv_config Csv eq_refl)
    as (dn & st1 & e & st2 & Hcreate & Hget & _ & Hcfg & _).
  exists dn, st1, e, st2. split; [exact Hcreate|]. split; [exact Hget|exact Hcfg].
Defined.
